(** * Multi-source RAG service: quality validation and evidence fusion

    A shallow embedding of
    - [backend/services/quality_service.py]   (QualityAssuranceService),
    - [backend/services/multi_source_rag_service.py] (MultiSourceRAGService),
    - [backend/api/query.py]                  (advanced_multi_source_query,
                                               _apply_source_weights),
    - [backend/services/ollama_service.py]    (OllamaService.generate_response),
    and the properties of the specification that concern them.

    Python [float] is IEEE-754 binary64: it is modelled by Rocq's primitive
    floats, so that every number below is the number the interpreter
    computes.  Python [str] is a sequence of Unicode code points. *)

From Stdlib Require Import String Ascii.
From Stdlib Require Import ZArith NArith Bool Lia.
From Stdlib Require Import Floats Uint63.
From Stdlib Require Import Sorting.Sorted Sorting.Permutation.
From stdpp Require Import base decidable countable list gmap sets.

Set Warnings "-inexact-float".
Set Default Proof Using "Type".

(* ===================================================================== *)
(** * Part I: the model                                                   *)
(* ===================================================================== *)

(* --------------------------------------------------------------------- *)
(** ** Python values                                                      *)
(* --------------------------------------------------------------------- *)

Module Py.

(** A [str]: its code points. *)
Definition pystr : Type := list N.

(** Source literals are written as UTF-8 text and decoded to code points. *)
Fixpoint utf8_decode (bs : list N) : pystr :=
  match bs with
  | [] => []
  | b0 :: r0 =>
    if (b0 <? 128)%N then b0 :: utf8_decode r0
    else
      match r0 with
      | [] => [65533%N]
      | b1 :: r1 =>
        if (b0 <? 224)%N then
          N.lor (N.shiftl (N.land b0 31) 6) (N.land b1 63) :: utf8_decode r1
        else
          match r1 with
          | [] => [65533%N]
          | b2 :: r2 =>
            if (b0 <? 240)%N then
              N.lor (N.shiftl (N.land b0 15) 12)
                (N.lor (N.shiftl (N.land b1 63) 6) (N.land b2 63))
              :: utf8_decode r2
            else
              match r2 with
              | [] => [65533%N]
              | b3 :: r3 =>
                N.lor (N.shiftl (N.land b0 7) 18)
                  (N.lor (N.shiftl (N.land b1 63) 12)
                     (N.lor (N.shiftl (N.land b2 63) 6) (N.land b3 63)))
                :: utf8_decode r3
              end
          end
      end
  end.

Definition py (s : string) : pystr :=
  utf8_decode (map N_of_ascii (list_ascii_of_string s)).

Definition str_eqb (a b : pystr) : bool := bool_decide (a = b).

(** [int / int] and [float(int)] on counts.  Exact below 2^53, which every
    length met here is. *)
Definition float_of_nat (n : nat) : float :=
  PrimFloat.of_uint63 (Uint63.of_Z (Z.of_nat n)).

(** [min(a, b)]: the first argument unless the second is smaller. *)
Definition py_min (a b : float) : float :=
  if (b <? a)%float then b else a.

(** An exception object, seen through [str(e)]. *)
Record PyException : Type := { exc_str : pystr }.

(** The tables of the interpreter's Unicode database that the code reaches
    through [re] and [str] methods. *)
Class Unicode : Type := {
  is_word   : N -> bool;          (* \w : alphanumeric or underscore   *)
  is_space  : N -> bool;          (* what str.strip() removes          *)
  str_lower : pystr -> pystr;     (* str.lower()                       *)
  str_upper : pystr -> pystr;     (* str.upper()                       *)
  ci_eq     : N -> N -> bool      (* pattern char vs text char under
                                     re.IGNORECASE                     *)
}.

(** The tables restricted to ASCII and to Hangul syllables (which have no
    case).  They agree with CPython on every string made of such
    characters; the concrete runs below only use such strings. *)
Definition ascii_lower (c : N) : N :=
  if ((65 <=? c) && (c <=? 90))%N then (c + 32)%N else c.
Definition ascii_upper (c : N) : N :=
  if ((97 <=? c) && (c <=? 122))%N then (c - 32)%N else c.
Definition ascii_hangul_word (c : N) : bool :=
  ((48 <=? c) && (c <=? 57) || (65 <=? c) && (c <=? 90)
   || (97 <=? c) && (c <=? 122) || (c =? 95)
   || (44032 <=? c) && (c <=? 55203))%N.
Definition ascii_space (c : N) : bool :=
  ((9 <=? c) && (c <=? 13) || (28 <=? c) && (c <=? 32))%N.

#[export] Instance ascii_hangul : Unicode := {|
  is_word := ascii_hangul_word;
  is_space := ascii_space;
  str_lower := map ascii_lower;
  str_upper := map ascii_upper;
  ci_eq := fun p c => (ascii_lower p =? ascii_lower c)%N
|}.

Section Strings.
Context {U : Unicode}.

Fixpoint lstrip (s : pystr) : pystr :=
  match s with
  | c :: s' => if is_space c then lstrip s' else s
  | [] => []
  end.

(** [s.strip()] *)
Definition strip (s : pystr) : pystr := rev (lstrip (rev (lstrip s))).

Fixpoint starts_with (p s : pystr) : bool :=
  match p, s with
  | [], _ => true
  | a :: p', b :: s' => (a =? b)%N && starts_with p' s'
  | _ :: _, [] => false
  end.

(** [sub in s] *)
Fixpoint contains (sub s : pystr) : bool :=
  starts_with sub s ||
  match s with
  | [] => false
  | _ :: s' => contains sub s'
  end.

(** *** Regular expressions

    The patterns of the service use literal characters, [.] and a
    postfix [*] only. *)
Inductive regex : Type :=
| Empty | Eps
| Chr (c : N)
| Dot
| Cat (r1 r2 : regex)
| Alt (r1 r2 : regex)
| Star (r : regex).

Fixpoint re_compile (p : pystr) : regex :=
  match p with
  | [] => Eps
  | c :: p' =>
    let atom := if (c =? 46)%N then Dot else Chr c in
    match p' with
    | 42%N :: p'' => Cat (Star atom) (re_compile p'')
    | _ => Cat atom (re_compile p')
    end
  end.

Fixpoint nullable (r : regex) : bool :=
  match r with
  | Empty | Chr _ | Dot => false
  | Eps | Star _ => true
  | Cat r1 r2 => nullable r1 && nullable r2
  | Alt r1 r2 => nullable r1 || nullable r2
  end.

Definition alt (r1 r2 : regex) : regex :=
  match r1, r2 with
  | Empty, _ => r2
  | _, Empty => r1
  | _, _ => Alt r1 r2
  end.

Definition cat (r1 r2 : regex) : regex :=
  match r1, r2 with
  | Empty, _ | _, Empty => Empty
  | Eps, _ => r2
  | _, _ => Cat r1 r2
  end.

(** What is left of [r] after reading [c]; [.] refuses a newline, a
    literal is compared as re.IGNORECASE does. *)
Fixpoint deriv (c : N) (r : regex) : regex :=
  match r with
  | Empty | Eps => Empty
  | Chr p => if ci_eq p c then Eps else Empty
  | Dot => if (c =? 10)%N then Empty else Eps
  | Cat r1 r2 =>
    alt (cat (deriv c r1) r2) (if nullable r1 then deriv c r2 else Empty)
  | Alt r1 r2 => alt (deriv c r1) (deriv c r2)
  | Star r1 => cat (deriv c r1) (Star r1)
  end.

(** Some prefix of [s] matches [r]. *)
Fixpoint match_here (r : regex) (s : pystr) : bool :=
  nullable r ||
  match s with
  | [] => false
  | c :: s' => match_here (deriv c r) s'
  end.

Fixpoint search_from (r : regex) (s : pystr) : bool :=
  match_here r s ||
  match s with
  | [] => false
  | _ :: s' => search_from r s'
  end.

(** [bool(re.search(pattern, s, re.IGNORECASE))] *)
Definition re_search (pattern s : pystr) : bool :=
  search_from (re_compile pattern) s.

(** [re.findall(r'\b\w{3,}\b', s)]: the maximal runs of word characters
    that are at least three long, left to right. *)
Definition flush (cur : pystr) : list pystr :=
  if (3 <=? length cur)%nat then [rev cur] else [].

Fixpoint word_runs (s cur : pystr) : list pystr :=
  match s with
  | [] => flush cur
  | c :: s' =>
    if is_word c then word_runs s' (c :: cur)
    else flush cur ++ word_runs s' []
  end.

Definition findall_words (s : pystr) : list pystr := word_runs s [].

End Strings.

End Py.
Export Py.

(* --------------------------------------------------------------------- *)
(** ** quality_service.py: QualityAssuranceService                        *)
(* --------------------------------------------------------------------- *)

Module Quality.
Local Open Scope string_scope.
Local Open Scope list_scope.

(** [__init__]: the three tables. *)
Definition boilerplate_patterns : list pystr :=
  [ py "도와드릴 수 있"; py "어떻게.*도와"; py "무엇.*원하시";
    py "As an AI"; py "I'm an AI"; py "assist you";
    py "죄송합니다.*도와드리지"; py "더 구체적으로.*말씀해" ].

Definition hallucination_indicators : list pystr :=
  [ py "확실하지.*않지만"; py "추측.*입니다"; py "아마도";
    py "것 같습니다"; py "생각됩니다"; py "추정.*됩니다" ].

Definition confidence_keywords_high : list pystr :=
  [ py "정확히"; py "명시되어"; py "문서에 따르면"; py "사양서에서" ].
Definition confidence_keywords_medium : list pystr :=
  [ py "일반적으로"; py "보통"; py "대체로" ].
Definition confidence_keywords_low : list pystr :=
  [ py "가능성이"; py "추정"; py "예상"; py "것으로 보임" ].

(** The values "low", "medium" and "high" of [risk_level] and
    [confidence_level]. *)
Inductive level : Type := low | medium | high.

#[export] Instance level_eq_dec : EqDecision level.
Proof. solve_decision. Defined.

(** A source dict, as far as the service reads it: the value under the key
    'content', when the key is there. *)
Definition source_dict : Type := option pystr.

Record BasicValidation : Type := {
  basic_is_valid : bool;
  basic_issues : list pystr;
  check_length : bool;
  check_not_na : bool;
  check_not_boilerplate : bool
}.

Record HallucinationCheck : Type := {
  risk_level : level;
  indicators_found : list pystr;
  risk_score : float
}.

Record SourceConsistency : Type := {
  is_consistent : bool;
  consistency_score : float;
  source_coverage : float
}.

Record ConfidenceAnalysis : Type := {
  confidence_level : level;
  keywords_found_high : list pystr;
  keywords_found_medium : list pystr;
  keywords_found_low : list pystr
}.

Record ValidationDetails : Type := {
  basic : BasicValidation;
  hallucination : HallucinationCheck;
  source_consistency : SourceConsistency;
  confidence_keywords : ConfidenceAnalysis
}.

Record ValidationResult : Type := {
  is_valid : bool;
  quality_score : float;
  issues : list pystr;
  suggestions : list pystr;
  confidence_adjusted : float;
  validation_details : ValidationDetails
}.

Section Service.
Context {U : Unicode}.

Definition _validate_basic_answer (answer : pystr) : BasicValidation :=
  let too_short :=
    bool_decide (answer = []) || (length (strip answer) <? 5)%nat in
  let is_na := str_eqb (str_upper (strip answer)) (py "N/A") in
  let is_boilerplate :=
    existsb (fun pattern => re_search pattern answer) boilerplate_patterns in
  {| basic_is_valid := negb too_short && negb is_na && negb is_boilerplate;
     basic_issues :=
       (if too_short then [py "답변이 너무 짧거나 비어있음"] else []) ++
       (if is_na then [py "정보를 찾을 수 없음"] else []) ++
       (if is_boilerplate then [py "일반적인 AI 응답 템플릿 감지"] else []);
     check_length := negb too_short;
     check_not_na := negb is_na;
     check_not_boilerplate := negb is_boilerplate |}.

(** One turn of the loop over [hallucination_indicators]: the state is
    ([indicators_found], [risk_score]). *)
Definition hallucination_step (answer : pystr)
    (acc : list pystr * float) (pattern : pystr) : list pystr * float :=
  if re_search pattern answer
  then (acc.1 ++ [pattern], (acc.2 + 0.2)%float)
  else acc.

Definition risk_level_of (score : float) : level :=
  if (0.6 <=? score)%float then high
  else if (0.3 <=? score)%float then medium
  else low.

Definition _check_hallucination (answer : pystr) : HallucinationCheck :=
  let acc :=
    fold_left (hallucination_step answer) hallucination_indicators
      ([], 0.0%float) in
  {| risk_level := risk_level_of acc.2;
     indicators_found := acc.1;
     risk_score := acc.2 |}.

(** [set(re.findall(r'\b\w{3,}\b', s.lower()))] *)
Definition keywords (s : pystr) : gset pystr :=
  list_to_set (findall_words (str_lower s)).

(** The loop over the sources: a source without 'content' adds nothing. *)
Definition source_keywords_of (sources : list source_dict) : gset pystr :=
  fold_left
    (fun acc source =>
       match source with
       | Some content => acc ∪ keywords content
       | None => acc
       end)
    sources ∅.

Definition _validate_source_consistency
    (answer : pystr) (sources : list source_dict) : SourceConsistency :=
  match sources with
  | [] =>
    {| is_consistent := false; consistency_score := 0.0;
       source_coverage := 0.0 |}
  | _ :: _ =>
    let answer_keywords := keywords answer in
    let source_keywords := source_keywords_of sources in
    if bool_decide (answer_keywords ≠ ∅) && bool_decide (source_keywords ≠ ∅)
    then
      let overlap := size (answer_keywords ∩ source_keywords) in
      let coverage :=
        (float_of_nat overlap / float_of_nat (size answer_keywords))%float in
      if (coverage <? 0.3)%float
      then {| is_consistent := false; consistency_score := coverage;
              source_coverage := coverage |}
      else {| is_consistent := true; consistency_score := 1.0;
              source_coverage := coverage |}
    else
      {| is_consistent := true; consistency_score := 1.0;
         source_coverage := 0.0 |}
  end.

Definition found_in (answer : pystr) (kws : list pystr) : list pystr :=
  filter (fun keyword => contains keyword answer = true) kws.

Definition _analyze_confidence_keywords (answer : pystr)
    : ConfidenceAnalysis :=
  let hi := found_in answer confidence_keywords_high in
  let me := found_in answer confidence_keywords_medium in
  let lo := found_in answer confidence_keywords_low in
  {| confidence_level :=
       match hi, lo with
       | _ :: _, _ => high
       | [], _ :: _ => low
       | [], [] => medium
       end;
     keywords_found_high := hi;
     keywords_found_medium := me;
     keywords_found_low := lo |}.

Definition hallucination_score (l : level) : float :=
  match l with low => 0.3 | medium => 0.15 | high => 0.0 end.

Definition confidence_score (l : level) : float :=
  match l with high => 0.1 | medium => 0.05 | low => 0.0 end.

Definition _calculate_quality_score
    (b : BasicValidation) (h : HallucinationCheck)
    (s : SourceConsistency) (c : ConfidenceAnalysis) : float :=
  let score := 0.0%float in
  let score := if basic_is_valid b then (score + 0.4)%float else score in
  let score := (score + hallucination_score (risk_level h))%float in
  let score := (score + 0.2 * consistency_score s)%float in
  let score := (score + confidence_score (confidence_level c))%float in
  py_min 1.0 score.

Definition _generate_suggestions (r : ValidationResult) : list pystr :=
  (if (quality_score r <? 0.5)%float
   then [py "답변 품질이 낮습니다. 더 구체적인 정보가 필요합니다."] else []) ++
  (if bool_decide (risk_level (hallucination (validation_details r)) = high)
   then [py "추측성 표현을 줄이고 확실한 정보만 제공하세요."] else []) ++
  (if negb (is_consistent (source_consistency (validation_details r)))
   then [py "소스 문서의 내용을 더 정확히 반영하세요."] else []) ++
  (if (confidence_adjusted r <? 0.5)%float
   then [py "신뢰도가 낮습니다. 더 정확한 소스가 필요합니다."] else []).

Definition validate_answer (question answer : pystr)
    (sources : list source_dict) (confidence : float) : ValidationResult :=
  (* 1 *)
  let basic_validation := _validate_basic_answer answer in
  let valid := basic_is_valid basic_validation in
  let issues1 :=
    if basic_is_valid basic_validation then []
    else basic_issues basic_validation in
  (* 2 *)
  let hallucination_check := _check_hallucination answer in
  let is_high := bool_decide (risk_level hallucination_check = high) in
  let conf2 := if is_high then (confidence * 0.5)%float else confidence in
  let issues2 :=
    if is_high then issues1 ++ [py "높은 환각 위험 감지"] else issues1 in
  (* 3 *)
  let source_validation := _validate_source_consistency answer sources in
  let conf3 :=
    if is_consistent source_validation then conf2
    else (conf2 * 0.7)%float in
  let issues3 :=
    if is_consistent source_validation then issues2
    else issues2 ++ [py "소스와의 일치성 부족"] in
  (* 4 *)
  let confidence_analysis := _analyze_confidence_keywords answer in
  (* 5 *)
  let r :=
    {| is_valid := valid;
       quality_score :=
         _calculate_quality_score basic_validation hallucination_check
           source_validation confidence_analysis;
       issues := issues3;
       suggestions := [];
       confidence_adjusted := conf3;
       validation_details :=
         {| basic := basic_validation;
            hallucination := hallucination_check;
            source_consistency := source_validation;
            confidence_keywords := confidence_analysis |} |} in
  (* 6 *)
  {| is_valid := is_valid r;
     quality_score := quality_score r;
     issues := issues r;
     suggestions := _generate_suggestions r;
     confidence_adjusted := confidence_adjusted r;
     validation_details := validation_details r |}.

(** *** run_selftest

    A test case is a dict read with [.get(key, default)]: every key may
    be missing. *)
Record TestCase : Type := {
  tc_question : option pystr;
  tc_expected_answer : option pystr;
  tc_actual_answer : option pystr;
  tc_expected_validation : option bool;
  tc_sources : option (list source_dict);
  tc_confidence : option float
}.

Record TestResult : Type := {
  test_id : nat;
  tr_question : pystr;
  tr_expected_answer : pystr;
  tr_actual_answer : pystr;
  tr_expected_validation : bool;
  tr_passed : bool;
  tr_validation_result : ValidationResult
}.

Record SelfTestSummary : Type := {
  total_tests : nat;
  passed : nat;
  failed : nat;
  test_results : list TestResult;
  overall_score : float;
  timestamp : pystr
}.

(** The validation of one case, with the defaults of the [.get] calls. *)
Definition case_validation (test_case : TestCase) : ValidationResult :=
  validate_answer
    (default [] (tc_question test_case))
    (default [] (tc_actual_answer test_case))
    (default [] (tc_sources test_case))
    (default 0.5%float (tc_confidence test_case)).

Definition case_passed (test_case : TestCase) (validation : ValidationResult)
    : bool :=
  if default true (tc_expected_validation test_case)
  then is_valid validation && (0.5 <=? quality_score validation)%float
  else negb (is_valid validation) || (quality_score validation <? 0.5)%float.

Definition run_case (i : nat) (test_case : TestCase) : TestResult :=
  let validation := case_validation test_case in
  {| test_id := i + 1;
     tr_question := default [] (tc_question test_case);
     tr_expected_answer := default [] (tc_expected_answer test_case);
     tr_actual_answer := default [] (tc_actual_answer test_case);
     tr_expected_validation :=
       default true (tc_expected_validation test_case);
     tr_passed := case_passed test_case validation;
     tr_validation_result := validation |}.

(** One turn of the loop: the state is (passed, failed, test_results). *)
Definition selftest_step (acc : nat * nat * list TestResult)
    (it : nat * TestCase) : nat * nat * list TestResult :=
  let test_result := run_case it.1 it.2 in
  if tr_passed test_result
  then (acc.1.1 + 1, acc.1.2, acc.2 ++ [test_result])
  else (acc.1.1, acc.1.2 + 1, acc.2 ++ [test_result]).

(** [now] is [datetime.now().isoformat()]. *)
Definition run_selftest (now : pystr) (test_cases : list TestCase)
    : SelfTestSummary :=
  let acc := fold_left selftest_step (imap pair test_cases) (0, 0, []) in
  let total := length test_cases in
  {| total_tests := total;
     passed := acc.1.1;
     failed := acc.1.2;
     test_results := acc.2;
     overall_score :=
       if (0 <? total)%nat
       then (float_of_nat acc.1.1 / float_of_nat total)%float
       else 0.0%float;
     timestamp := now |}.

End Service.
End Quality.

(* --------------------------------------------------------------------- *)
(** ** multi_source_rag_service.py and api/query.py                       *)
(* --------------------------------------------------------------------- *)

Module MultiSource.
Import Quality.
Local Open Scope string_scope.
Local Open Scope list_scope.

Inductive DataSource : Type := DOCUMENTS | DATABASE | WEB_SEARCH.
Inductive UserRole : Type := ENGINEER | QUALITY | SALES | SUPPORT.

#[export] Instance DataSource_eq_dec : EqDecision DataSource.
Proof. solve_decision. Defined.

#[export] Instance DataSource_countable : Countable DataSource.
Proof.
  refine (inj_countable'
    (fun d => match d with DOCUMENTS => 0 | DATABASE => 1 | WEB_SEARCH => 2 end)
    (fun n => match n with 0 => DOCUMENTS | 1 => DATABASE | _ => WEB_SEARCH end)
    _).
  intros []; reflexivity.
Defined.

(** *** response_models.py *)

Record MultiSourceInfo : Type := {
  source_type : DataSource;
  source_id : pystr;
  content : pystr;
  relevance_score : float;
  metadata : list (pystr * pystr);
  document_name : option pystr;
  page_number : option Z;
  section : option pystr;
  url : option pystr;
  web_source : option pystr
}.

(** [relevance_score: float = Field(..., ge=0.0, le=1.0)]: what pydantic
    checks when a [MultiSourceInfo] is built. *)
Definition score_in_range (x : float) : bool :=
  ((0.0 <=? x) && (x <=? 1.0))%float.

Record SourceSearchResult : Type := {
  result_source_type : DataSource;
  results : list MultiSourceInfo;
  search_time_ms : Z;
  total_found : nat;
  status : string;
  error_message : option pystr
}.

Record MultiSourceQueryResponse : Type := {
  answer : pystr;
  confidence : float;
  sources : list MultiSourceInfo;
  query_time_ms : Z;
  model_used : pystr;
  sources_by_type : gmap DataSource nat;
  search_strategy : string;
  total_sources_searched : nat
}.

Record MultiSourceSearchResponse : Type := {
  search_question : pystr;
  source_results : list SourceSearchResult;
  total_search_time_ms : Z;
  successful_sources : nat;
  failed_sources : nat
}.

(** *** request_models.py *)

Record MultiSourceQueryRequest : Type := {
  question : pystr;
  user_role : UserRole;
  data_sources : list DataSource;
  document_filter : option (list (pystr * pystr));
  top_k_per_source : Z;
  enable_web_search : bool;
  web_search_query : option pystr;
  combine_results : bool
}.

Record SourceWeight : Type := {
  documents : float;
  database : float;
  web_search : float
}.

Record AdvancedMultiSourceRequest : Type := {
  adv_question : pystr;
  adv_user_role : UserRole;
  adv_data_sources : list DataSource;
  source_weights : option SourceWeight;
  adv_top_k_per_source : Z;
  min_relevance_threshold : float;
  adv_enable_web_search : bool;
  web_search_engine : option pystr;
  manufacturing_focus : bool;
  adv_document_filter : option (list (pystr * pystr))
}.

Record HTTPException : Type := { status_code : Z; detail : pystr }.

(** *** Raising and returning *)

Definition Result (A : Type) : Type := (PyException + A)%type.
Definition ret {A : Type} (a : A) : Result A := inr a.
Definition raise {A : Type} (e : PyException) : Result A := inl e.

#[export] Instance Result_bind : MBind Result :=
  fun A B (k : A -> Result B) (m : Result A) =>
    match m with
    | inl e => inl e
    | inr a => k a
    end.

Definition IndexError : PyException :=
  {| exc_str := py "list index out of range" |}.
Definition AttributeError : PyException :=
  {| exc_str := py "'MultiSourceSearchResponse' object has no attribute 'sources'" |}.
Definition no_status : PyException :=
  {| exc_str := py "'CancelledError' object has no attribute 'status'" |}.

(** *** What the service does not decide

    How an awaited search task ends, as [asyncio.gather(...,
    return_exceptions=True)] hands it over: the instance of [Exception] it
    raised, the result it returned, or, for a task that was cancelled, an
    [asyncio.CancelledError], which is a [BaseException] but not an
    [Exception]. *)
Inductive task_outcome : Type :=
| Raised (e : PyException)
| Returned (r : SourceSearchResult)
| Cancelled (e : PyException).

(** An element of [processed_results]: a search result, or the exception
    object that [isinstance(result, Exception)] let through. *)
Inductive processed : Type :=
| Entry (r : SourceSearchResult)
| Leftover (e : PyException).

(** The collaborators of one request. *)
Record World : Type := {
  (** the [i]-th search task, a search of the given source *)
  run_task : nat -> DataSource -> task_outcome;
  (** [ollama_service.generate_response(prompt)]; the prompt is built from
      the question, the role and the selected sources only *)
  generate_response :
    pystr -> UserRole -> list MultiSourceInfo -> Result pystr;
  (** [ollama_service.model] *)
  model : pystr;
  (** [int((time.time() - start_time) * 1000)] in [query] *)
  query_elapsed_ms : Z
}.

(** [l.sort(key=key, reverse=True)]: the stable descending order, decided
    with [<] on the keys alone. *)
Fixpoint insert_desc {A : Type} (key : A -> float) (x : A) (l : list A)
    : list A :=
  match l with
  | [] => [x]
  | y :: l' =>
    if (key x <? key y)%float then y :: insert_desc key x l' else x :: l
  end.

Definition sort_desc {A : Type} (key : A -> float) (l : list A) : list A :=
  foldr (insert_desc key) [] l.

Definition is_status (s : string) (r : SourceSearchResult) : bool :=
  String.eqb (status r) s.

(** *** The search tasks

    Each of the three has the shape [try: ... except Exception as e: ...]:
    [body] is how the [try] block ends, with the evidence it built or the
    exception it raised, and [search_time] the elapsed milliseconds. *)
Definition task_result (ty : DataSource)
    (body : Result (list MultiSourceInfo)) (search_time : Z)
    : SourceSearchResult :=
  match body with
  | inr multi_source_results =>
    {| result_source_type := ty;
       results := multi_source_results;
       search_time_ms := search_time;
       total_found := length multi_source_results;
       status := "success";
       error_message := None |}
  | inl e =>
    {| result_source_type := ty;
       results := [];
       search_time_ms := search_time;
       total_found := 0;
       status := "failed";
       error_message := Some (exc_str e) |}
  end.

Definition _search_documents := task_result DOCUMENTS.
Definition _search_database := task_result DATABASE.

Definition _search_web (request : MultiSourceQueryRequest)
    (body : Result (list MultiSourceInfo)) (search_time : Z)
    : SourceSearchResult :=
  if negb (enable_web_search request) then
    {| result_source_type := WEB_SEARCH;
       results := [];
       search_time_ms := 0;
       total_found := 0;
       status := "disabled";
       error_message := Some (py "웹 검색이 비활성화되어 있습니다.") |}
  else task_result WEB_SEARCH body search_time.

(** How the [try] block of a search task ends: with the evidence it built
    or with the [Exception] it raised, which [except Exception] catches, or
    with a cancellation, which it does not catch. *)
Inductive try_outcome : Type :=
| Ends (body : Result (list MultiSourceInfo))
| Interrupted (e : PyException).

(** The services behind one request. *)
Record Backends : Type := {
  (** the [try] block of the [i]-th search task, a search of the given
      source, once its collaborators are called *)
  search_block : nat -> DataSource -> try_outcome;
  (** [int((time.time() - start_time) * 1000)] in that task *)
  measured_ms : nat -> DataSource -> Z;
  (** [client.post(...)] and [response.json()] for a prompt built from the
      question, the role and the selected sources: the status code and the
      entry "response" of the body *)
  ollama_post :
    pystr -> UserRole -> list MultiSourceInfo -> Result (Z * option pystr);
  ollama_model : pystr;
  elapsed_ms : Z
}.

(** Awaiting a search task. *)
Definition awaited
    (task : Result (list MultiSourceInfo) -> Z -> SourceSearchResult)
    (block : try_outcome) (search_time : Z) : task_outcome :=
  match block with
  | Ends body => Returned (task body search_time)
  | Interrupted e => Cancelled e
  end.

(** The task that [_execute_multi_source_search] creates for the [i]-th
    requested source; a disabled web search returns before its
    collaborators are called. *)
Definition search_task (request : MultiSourceQueryRequest) (b : Backends)
    (i : nat) (source : DataSource) : task_outcome :=
  let block := search_block b i source in
  let search_time := measured_ms b i source in
  match source with
  | DOCUMENTS => awaited _search_documents block search_time
  | DATABASE => awaited _search_database block search_time
  | WEB_SEARCH =>
    if enable_web_search request
    then awaited (_search_web request) block search_time
    else Returned (_search_web request (inr []) search_time)
  end.

(** *** MultiSourceRAGService *)

Definition failed_result (ty : DataSource) (e : PyException)
    : SourceSearchResult :=
  {| result_source_type := ty;
     results := [];
     search_time_ms := 0;
     total_found := 0;
     status := "failed";
     error_message := Some (exc_str e) |}.

(** The loop [for i, result in enumerate(results)]: only an instance of
    [Exception] is replaced by a failed result; anything else is appended as
    it is. *)
Fixpoint process_results (sources_requested : list DataSource) (i : nat)
    (gathered : list task_outcome) : Result (list processed) :=
  match gathered with
  | [] => ret []
  | result :: rest =>
    entry ←
      match result with
      | Raised e =>
        match sources_requested !! i with
        | Some ty => ret (Entry (failed_result ty e))
        | None => raise IndexError
        end
      | Returned r => ret (Entry r)
      | Cancelled e => ret (Leftover e)
      end;
    processed_results ← process_results sources_requested (S i) rest;
    ret (entry :: processed_results)
  end.

(** Every member of [DataSource] has its task, so the loop that builds
    [search_tasks] skips nothing. *)
Definition _execute_multi_source_search (w : World)
    (request : MultiSourceQueryRequest) : Result (list processed) :=
  let search_tasks := imap (run_task w) (data_sources request) in
  match search_tasks with
  | [] => ret []
  | _ :: _ => process_results (data_sources request) 0 search_tasks
  end.

Definition _determine_search_strategy (request : MultiSourceQueryRequest)
    : string :=
  if (length (data_sources request) =? 1)%nat then "fast"
  else if bool_decide (WEB_SEARCH ∈ data_sources request) then "comprehensive"
  else if (top_k_per_source request <=? 3)%Z then "fast"
  else "balanced".

Section Service.
Context {U : Unicode}.

(** One turn of the loop over [search_results]: the state is
    ([all_sources], [sources_by_type]). *)
Definition combine_step
    (acc : list MultiSourceInfo * gmap DataSource nat)
    (source_result : SourceSearchResult)
    : list MultiSourceInfo * gmap DataSource nat :=
  if is_status "success" source_result
  then (acc.1 ++ results source_result,
        <[result_source_type source_result :=
            length (results source_result)]> acc.2)
  else acc.

(** The loop [for source_result in search_results]: reading [.status] of an
    exception object raises. *)
Fixpoint combine_loop (search_results : list processed)
    (acc : list MultiSourceInfo * gmap DataSource nat)
    : Result (list MultiSourceInfo * gmap DataSource nat) :=
  match search_results with
  | [] => ret acc
  | Entry source_result :: rest =>
    combine_loop rest (combine_step acc source_result)
  | Leftover _ :: _ => raise no_status
  end.

Definition _combine_and_generate_answer (w : World)
    (request : MultiSourceQueryRequest)
    (search_results : list processed)
    : Result MultiSourceQueryResponse :=
  acc ← combine_loop search_results ([], ∅);
  let all_sources := sort_desc relevance_score acc.1 in
  let top_sources := take 10 all_sources in
  answer ←
    generate_response w (question request) (user_role request) top_sources;
  let validation_result :=
    validate_answer (question request) answer
      (map (fun source => Some (content source)) top_sources) 0.8 in
  ret {| answer := answer;
         confidence := confidence_adjusted validation_result;
         sources := top_sources;
         query_time_ms := 0;
         model_used := model w;
         sources_by_type := acc.2;
         search_strategy := "balanced";
         total_sources_searched := length all_sources |}.

Inductive QueryOutcome : Type :=
| Combined (r : MultiSourceQueryResponse)
| Individual (r : MultiSourceSearchResponse).

Definition with_query_time (t : Z) (r : MultiSourceQueryResponse)
    : MultiSourceQueryResponse :=
  {| answer := answer r;
     confidence := confidence r;
     sources := sources r;
     query_time_ms := t;
     model_used := model_used r;
     sources_by_type := sources_by_type r;
     search_strategy := search_strategy r;
     total_sources_searched := total_sources_searched r |}.

Definition count_status (s : string) (l : list SourceSearchResult) : nat :=
  length (filter (fun r => is_status s r = true) l).

(** [r.status for r in search_results], as the two sums of [query] read
    it before the response is built. *)
Fixpoint read_all (search_results : list processed)
    : Result (list SourceSearchResult) :=
  match search_results with
  | [] => ret []
  | Entry r :: rest => entries ← read_all rest; ret (r :: entries)
  | Leftover _ :: _ => raise no_status
  end.

(** [query]: an exception of the body is logged and raised again. *)
Definition query (w : World) (request : MultiSourceQueryRequest)
    : Result QueryOutcome :=
  let strategy := _determine_search_strategy request in
  search_results ← _execute_multi_source_search w request;
  if combine_results request then
    combined_response ←
      _combine_and_generate_answer w request search_results;
    ret (Combined (with_query_time (query_elapsed_ms w) combined_response))
  else
    entries ← read_all search_results;
    ret (Individual
           {| search_question := question request;
              source_results := entries;
              total_search_time_ms := query_elapsed_ms w;
              successful_sources := count_status "success" entries;
              failed_sources := count_status "failed" entries |}).

(** [OllamaService.generate_response]: [try: ... except Exception], so a
    text comes back whatever the request to the model server does. *)
Definition ollama_generate_response (post : Result (Z * option pystr))
    : pystr :=
  match post with
  | inr (code, response) =>
    if (code =? 200)%Z then strip (default [] response)
    else py "죄송합니다. 현재 응답을 생성할 수 없습니다."
  | inl _ => py "죄송합니다. 시스템 오류가 발생했습니다."
  end.

(** The collaborators of a request as the service wires them. *)
Definition service_world (request : MultiSourceQueryRequest) (b : Backends)
    : World :=
  {| run_task := search_task request b;
     generate_response := fun question role top_sources =>
       ret (ollama_generate_response (ollama_post b question role top_sources));
     model := ollama_model b;
     query_elapsed_ms := elapsed_ms b |}.

(** *** api/query.py *)

Definition weight_map (weights : SourceWeight) (ty : DataSource) : float :=
  match ty with
  | DOCUMENTS => documents weights
  | DATABASE => database weights
  | WEB_SEARCH => web_search weights
  end.

(** [source.relevance_score *= weight_map[source.source_type]] *)
Definition reweigh (weights : SourceWeight) (source : MultiSourceInfo)
    : MultiSourceInfo :=
  {| source_type := source_type source;
     source_id := source_id source;
     content := content source;
     relevance_score :=
       (relevance_score source * weight_map weights (source_type source))%float;
     metadata := metadata source;
     document_name := document_name source;
     page_number := page_number source;
     section := section source;
     url := url source;
     web_source := web_source source |}.

Definition with_sources (l : list MultiSourceInfo)
    (r : MultiSourceQueryResponse) : MultiSourceQueryResponse :=
  {| answer := answer r;
     confidence := confidence r;
     sources := l;
     query_time_ms := query_time_ms r;
     model_used := model_used r;
     sources_by_type := sources_by_type r;
     search_strategy := search_strategy r;
     total_sources_searched := total_sources_searched r |}.

Definition _apply_source_weights (response : MultiSourceQueryResponse)
    (weights : SourceWeight) : MultiSourceQueryResponse :=
  with_sources
    (sort_desc relevance_score (map (reweigh weights) (sources response)))
    response.

Definition basic_request_of (request : AdvancedMultiSourceRequest)
    : MultiSourceQueryRequest :=
  {| question := adv_question request;
     user_role := adv_user_role request;
     data_sources := adv_data_sources request;
     document_filter := adv_document_filter request;
     top_k_per_source := adv_top_k_per_source request;
     enable_web_search := adv_enable_web_search request;
     web_search_query := None;
     combine_results := true |}.

Definition error_500 (e : PyException) : HTTPException :=
  {| status_code := 500;
     detail :=
       py "고급 다중 소스 질의응답 처리 중 오류가 발생했습니다: " ++ exc_str e |}.

(** What the endpoint does to the response of [query]. *)
Definition adjust_response (request : AdvancedMultiSourceRequest)
    (response : MultiSourceQueryResponse) : MultiSourceQueryResponse :=
  let response :=
    match source_weights request with
    | Some weights => _apply_source_weights response weights
    | None => response
    end in
  if (0.0 <? min_relevance_threshold request)%float then
    with_sources
      (filter
         (fun source =>
            (min_relevance_threshold request <=? relevance_score source)%float
            = true)
         (sources response))
      response
  else response.

Definition advanced_multi_source_query (w : World)
    (request : AdvancedMultiSourceRequest)
    : HTTPException + MultiSourceQueryResponse :=
  if bool_decide (strip (adv_question request) = []) then
    inl {| status_code := 400; detail := py "질문을 입력해주세요." |}
  else
    match query w (basic_request_of request) with
    | inl e => inl (error_500 e)
    | inr (Individual _) => inl (error_500 AttributeError)
    | inr (Combined response) => inr (adjust_response request response)
    end.

End Service.
End MultiSource.

(* ===================================================================== *)
(** * Part II: properties                                                 *)
(* ===================================================================== *)

(* --------------------------------------------------------------------- *)
(** ** Order and sign of binary64 numbers                                 *)
(* --------------------------------------------------------------------- *)

Module FloatFacts.

(** Not below zero: a zero of either sign, a positive number, or no number
    at all. *)
Definition nn (x : spec_float) : Prop :=
  match x with
  | S754_zero _ | S754_nan => True
  | S754_infinity s | S754_finite s _ _ => s = false
  end.

(** The sign bit is not set. *)
Definition sign_clear (x : spec_float) : Prop :=
  match x with
  | S754_nan => True
  | S754_zero s | S754_infinity s | S754_finite s _ _ => s = false
  end.

Definition is_nan_sf (x : spec_float) : bool :=
  match x with S754_nan => true | _ => false end.

Lemma SFcompare_antisym x y c :
  SFcompare x y = Some c -> SFcompare y x = Some (CompOpp c).
Proof.
  destruct x as [sx|sx| |sx mx ex], y as [sy|sy| |sy my ey]; simpl;
    try discriminate;
    try (destruct sx; try destruct sy; intros [= <-]; reflexivity);
    try (destruct sy; intros [= <-]; reflexivity);
    try (intros [= <-]; reflexivity).
  change (Pos.compare_cont Eq mx my) with (Pos.compare mx my).
  change (Pos.compare_cont Eq my mx) with (Pos.compare my mx).
  rewrite (Z.compare_antisym ex ey), (Pos.compare_antisym mx my).
  destruct sx, sy; intros [= <-]; try reflexivity;
    destruct (ex ?= ey)%Z; simpl; try reflexivity;
    destruct (mx ?= my)%positive; reflexivity.
Qed.

Lemma SFcompare_total x y :
  is_nan_sf x = false -> is_nan_sf y = false ->
  exists c, SFcompare x y = Some c.
Proof.
  destruct x, y; simpl; try discriminate; eauto.
Qed.

Lemma SFleb_not_nan x y :
  SFleb x y = true -> is_nan_sf x = false /\ is_nan_sf y = false.
Proof.
  unfold SFleb. destruct x, y; simpl; try discriminate; auto.
Qed.

Lemma SFleb_trans x y z :
  SFleb x y = true -> SFleb y z = true -> SFleb x z = true.
Proof.
  unfold SFleb.
  destruct x as [sx|sx| |sx mx ex], y as [sy|sy| |sy my ey],
           z as [sz|sz| |sz mz ez];
    simpl; try discriminate; try reflexivity;
    try (destruct sx; try discriminate; try reflexivity);
    try (destruct sy; try discriminate; try reflexivity);
    try (destruct sz; try discriminate; try reflexivity).
  all: change (Pos.compare_cont Eq ?a ?b) with (Pos.compare a b).
  all: destruct (Z.compare_spec ex ey); destruct (Z.compare_spec ey ez);
       destruct (Z.compare_spec ex ez);
       try discriminate; try reflexivity; try lia.
  all: destruct (Pos.compare_spec mx my); destruct (Pos.compare_spec my mz);
       destruct (Pos.compare_spec mx mz); simpl;
       try discriminate; try reflexivity; try lia.
Qed.

Lemma nn_round_aux p em m e l : nn (binary_round_aux p em false m e l).
Proof.
  unfold binary_round_aux.
  destruct (shr_fexp p em m e l) as [mrs' e'].
  destruct (shr_fexp p em _ e' loc_Exact) as [mrs'' e''].
  destruct (shr_m mrs''); simpl; auto.
  destruct (Z.leb _ _); simpl; auto.
Qed.

Lemma sign_clear_round_aux p em m e l :
  sign_clear (binary_round_aux p em false m e l).
Proof.
  unfold binary_round_aux.
  destruct (shr_fexp p em m e l) as [mrs' e'].
  destruct (shr_fexp p em _ e' loc_Exact) as [mrs'' e''].
  destruct (shr_m mrs''); simpl; auto.
  destruct (Z.leb _ _); simpl; auto.
Qed.

Lemma sign_clear_nn x : sign_clear x -> nn x.
Proof. destruct x; simpl; auto. Qed.

Lemma nn_mul p em x y : nn x -> nn y -> nn (SFmul p em x y).
Proof.
  destruct x as [sx|sx| |sx mx ex], y as [sy|sy| |sy my ey]; simpl; auto;
    intros; subst; simpl; auto using nn_round_aux.
Qed.

Lemma nn_div p em x y : nn x -> sign_clear y -> nn (SFdiv p em x y).
Proof.
  destruct x as [sx|sx| |sx mx ex], y as [sy|sy| |sy my ey]; simpl; auto;
    intros; subst; simpl; auto.
  destruct (SFdiv_core_binary _ _ _ _ _ _) as [[mz ez] lz].
  apply nn_round_aux.
Qed.

Lemma nn_add p em x y : nn x -> nn y -> nn (SFadd p em x y).
Proof.
  destruct x as [sx|sx| |sx mx ex], y as [sy|sy| |sy my ey]; simpl; auto;
    intros; subst; simpl; auto.
  - destruct sx, sy; simpl; auto.
  - destruct (shl_align mx ex _), (shl_align my ey _); simpl.
    unfold binary_round. destruct (shl_align _ _ _). apply nn_round_aux.
Qed.

Lemma sign_clear_normalize p em z :
  (0 <= z)%Z -> sign_clear (binary_normalize p em z 0 false).
Proof.
  destruct z; simpl; auto; try lia. intros _.
  unfold binary_round. destruct (shl_align _ _ _).
  apply sign_clear_round_aux.
Qed.

Lemma nn_not_below_zero x s : nn x -> SFltb x (S754_zero s) = false.
Proof. destruct x; simpl; intros; subst; reflexivity. Qed.

Lemma nn_of_leb_zero x s : SFleb (S754_zero s) x = true -> nn x.
Proof. destruct x as [| [] | | [] ]; simpl; auto; discriminate. Qed.

(** *** The same, on the primitive numbers *)

Local Open Scope float_scope.

Definition not_negative (x : float) : Prop := nn (Prim2SF x).

Lemma leb_trans x y z :
  (x <=? y) = true -> (y <=? z) = true -> (x <=? z) = true.
Proof. rewrite !FloatAxioms.leb_spec. apply SFleb_trans. Qed.

Lemma ltb_leb x y : (x <? y) = true -> (x <=? y) = true.
Proof.
  rewrite FloatAxioms.ltb_spec, FloatAxioms.leb_spec. unfold SFltb, SFleb.
  destruct (SFcompare _ _) as [[]|]; auto.
Qed.

Lemma leb_not_ltb x y : (x <=? y) = true -> (y <? x) = false.
Proof.
  rewrite FloatAxioms.ltb_spec, FloatAxioms.leb_spec. unfold SFltb, SFleb.
  destruct (SFcompare (Prim2SF x) (Prim2SF y)) as [c|] eqn:E;
    [|discriminate].
  rewrite (SFcompare_antisym _ _ _ E). destruct c; simpl; auto; discriminate.
Qed.

(** A number: what [x >= a] or [x <= a] can only hold of. *)
Definition is_number (x : float) : Prop := is_nan_sf (Prim2SF x) = false.

Lemma leb_is_number_l x y : (x <=? y) = true -> is_number x.
Proof. rewrite FloatAxioms.leb_spec. intros H. apply (SFleb_not_nan _ _ H). Qed.

Lemma leb_is_number_r x y : (x <=? y) = true -> is_number y.
Proof. rewrite FloatAxioms.leb_spec. intros H. apply (SFleb_not_nan _ _ H). Qed.

Lemma ltb_is_number_l x y : (x <? y) = true -> is_number x.
Proof. intros H. apply (leb_is_number_l x y), ltb_leb, H. Qed.

Lemma not_ltb_leb x y :
  is_number x -> is_number y -> (x <? y) = false -> (y <=? x) = true.
Proof.
  unfold is_number. rewrite FloatAxioms.ltb_spec, FloatAxioms.leb_spec. unfold SFltb, SFleb.
  intros Hx Hy.
  destruct (SFcompare_total _ _ Hx Hy) as [c E]. rewrite E.
  rewrite (SFcompare_antisym _ _ _ E). destruct c; simpl; auto; discriminate.
Qed.

Lemma not_negative_of_leb x : (0 <=? x) = true -> not_negative x.
Proof. rewrite FloatAxioms.leb_spec. apply nn_of_leb_zero. Qed.

Lemma not_negative_ltb x z :
  not_negative x -> (0 <? z) = false -> (0 <=? z) = true -> (x <? z) = false.
Proof.
  unfold not_negative. rewrite !FloatAxioms.ltb_spec, FloatAxioms.leb_spec.
  change (Prim2SF 0) with (S754_zero false).
  unfold SFltb, SFleb.
  destruct (Prim2SF z) as [sz|[]| |[] mz ez]; simpl; try discriminate.
  intros H _ _. apply (nn_not_below_zero _ sz H).
Qed.

Lemma not_negative_mul x y :
  not_negative x -> not_negative y -> not_negative (x * y).
Proof. unfold not_negative. rewrite FloatAxioms.mul_spec. apply nn_mul. Qed.

Lemma not_negative_add x y :
  not_negative x -> not_negative y -> not_negative (x + y).
Proof. unfold not_negative. rewrite FloatAxioms.add_spec. apply nn_add. Qed.

Lemma sign_clear_of_nat n : sign_clear (Prim2SF (float_of_nat n)).
Proof.
  unfold float_of_nat. rewrite FloatAxioms.of_uint63_spec. apply sign_clear_normalize.
  apply Uint63.to_Z_bounded.
Qed.

Lemma not_negative_count_ratio a b :
  not_negative (float_of_nat a / float_of_nat b).
Proof.
  unfold not_negative. rewrite FloatAxioms.div_spec.
  apply nn_div; [apply sign_clear_nn|]; apply sign_clear_of_nat.
Qed.

End FloatFacts.

(* --------------------------------------------------------------------- *)
(** ** The quality validation engine                                      *)
(* --------------------------------------------------------------------- *)

Module QualityProps.
Import Quality FloatFacts.
Local Open Scope string_scope.
Local Open Scope list_scope.

(** The risk score after [n] matching patterns. *)
Definition risk_after (n : nat) : float :=
  Nat.iter n (fun s => (s + 0.2)%float) 0.0%float.

(** The risk level after [n] matching patterns. *)
Definition level_after (n : nat) : level :=
  if (n <=? 1)%nat then low else if (n =? 2)%nat then medium else high.

Section Checks.
Context {U : Unicode}.

(** The indicator patterns that an answer matches. *)
Definition matched (answer : pystr) : list pystr :=
  filter (fun pattern => re_search pattern answer = true)
    hallucination_indicators.

Lemma fold_hallucination_step answer ps found score :
  fold_left (hallucination_step answer) ps (found, score) =
  (found ++ filter (fun p => re_search p answer = true) ps,
   Nat.iter (length (filter (fun p => re_search p answer = true) ps))
     (fun s => (s + 0.2)%float) score).
Proof.
  revert found score. induction ps as [|p ps IH]; intros found score.
  - simpl. by rewrite app_nil_r.
  - simpl fold_left. unfold hallucination_step at 2.
    destruct (re_search p answer) eqn:E.
    + rewrite filter_cons_True by done. cbn [fst snd].
      rewrite IH, <- app_assoc. cbn [length app].
      by rewrite Nat.iter_succ_r.
    + rewrite filter_cons_False by (rewrite E; done). apply IH.
Qed.

Lemma check_hallucination_matched answer :
  indicators_found (_check_hallucination answer) = matched answer /\
  risk_score (_check_hallucination answer)
    = risk_after (length (matched answer)).
Proof.
  unfold _check_hallucination, matched, risk_after.
  rewrite fold_hallucination_step. simpl. auto.
Qed.

Lemma matched_at_most_six answer : length (matched answer) <= 6.
Proof. unfold matched. etrans; [apply length_filter|]. reflexivity. Qed.

Lemma risk_level_after n :
  n <= 6 -> risk_level_of (risk_after n) = level_after n.
Proof.
  intros Hn. do 7 (destruct n as [|n]; [vm_compute; reflexivity|]). lia.
Qed.

Lemma check_hallucination_level answer :
  risk_level (_check_hallucination answer)
    = level_after (length (matched answer)).
Proof.
  pose proof (check_hallucination_matched answer) as [_ Hs].
  unfold _check_hallucination in *. simpl in *. rewrite Hs.
  apply risk_level_after, matched_at_most_six.
Qed.

Lemma level_after_high n :
  bool_decide (level_after n = high) = (3 <=? n)%nat.
Proof.
  unfold level_after.
  destruct n as [|[|[|n]]]; reflexivity.
Qed.

End Checks.

(** The answer of the running example: one hedging phrase, grounded in its
    only source. *)
Definition hedged_answer : pystr := py "전압은 1.1V로 추정됩니다".

(** C1 (as stated) fails: the answer contains the hedging phrase
    "추정됩니다" and matches exactly one indicator pattern, yet the risk
    level is "low" and the confidence comes back unchanged, above 0.7 times
    the raw confidence. *)
Lemma single_hedge_is_low_risk :
  let r := validate_answer (py "전압은?") hedged_answer [Some hedged_answer] 0.8 in
  contains (py "추정됩니다") hedged_answer = true /\
  matched hedged_answer = [py "추정.*됩니다"] /\
  risk_level (hallucination (validation_details r)) = low /\
  confidence_adjusted r = 0.8%float /\
  (confidence_adjusted r <=? 0.7 * 0.8)%float = false.
Proof. vm_compute. repeat split; reflexivity. Qed.

(** C1 (amended): the risk score is 0.2 per matching indicator pattern; one
    matching pattern leaves the risk "low", two make it "medium", three or
    more "high"; only "high" multiplies the confidence by 0.5, and the one
    other penalty is the 0.7 of an answer inconsistent with its sources. *)
Theorem hallucination_risk_by_match_count {U : Unicode}
    (question answer : pystr) (sources : list source_dict)
    (confidence : float) :
  let r := validate_answer question answer sources confidence in
  let h := hallucination (validation_details r) in
  let n := length (matched answer) in
  indicators_found h = matched answer /\
  risk_score h = risk_after n /\
  risk_level h = level_after n /\
  confidence_adjusted r =
    (let c := if (3 <=? n)%nat then (confidence * 0.5)%float else confidence in
     if is_consistent (source_consistency (validation_details r))
     then c else (c * 0.7)%float).
Proof.
  cbn zeta. unfold validate_answer.
  cbn [validation_details hallucination source_consistency confidence_adjusted].
  pose proof (check_hallucination_matched answer) as [Hf Hs].
  pose proof (check_hallucination_level answer) as Hl.
  rewrite Hl, level_after_high. auto.
Qed.

(** *** The words compared *)

Section Words.
Context {U : Unicode}.

(** [w] is a word of the text [t], as [\b\w{3,}\b] finds it: three or more
    word characters in a row, with no word character right before or right
    after them. *)
Definition word_of (t w : pystr) : Prop :=
  exists before after,
    t = before ++ w ++ after /\
    3 <= length w /\
    Forall (fun c => is_word c = true) w /\
    (forall c, last before = Some c -> is_word c = false) /\
    (forall c, head after = Some c -> is_word c = false).

Lemma word_of_whole t w :
  Forall (fun c => is_word c = true) t ->
  word_of t w <-> w = t /\ 3 <= length t.
Proof.
  intros Ht. split.
  - intros (before & after & -> & Hlen & Hw & Hb & Ha).
    apply Forall_app in Ht as [Hbefore Ht].
    apply Forall_app in Ht as [_ Hafter].
    assert (before = []) as ->.
    { destruct (last before) as [c|] eqn:E.
      - pose proof (Hb c eq_refl) as Hc.
        apply last_Some_elem_of in E.
        rewrite Forall_forall in Hbefore. rewrite (Hbefore c E) in Hc.
        discriminate.
      - by apply last_None in E. }
    assert (after = []) as ->.
    { destruct after as [|c after]; [done|].
      pose proof (Ha c eq_refl) as Hc.
      apply Forall_cons in Hafter as [Hc' _]. congruence. }
    simpl. rewrite app_nil_r. done.
  - intros [-> Hlen]. exists [], []. simpl. rewrite app_nil_r.
    repeat split; done.
Qed.

Lemma word_of_split t1 c t2 w :
  is_word c = false ->
  word_of (t1 ++ c :: t2) w <-> word_of t1 w \/ word_of t2 w.
Proof.
  intros Hc. split.
  - intros (before & after & E & Hlen & Hw & Hb & Ha).
    apply app_eq_app in E as [l [[-> E]|[-> E]]].
    + (* t1 = before ++ l, w ++ after = l ++ c :: t2 *)
      symmetry in E. apply app_eq_app in E as [l' [[-> E]|[-> E]]].
      * (* l = w ++ l' *)
        left. exists before, l'. repeat split; try done.
        intros c' Hc'. destruct l' as [|x l']; [done|].
        simpl in Hc'. injection Hc' as <-.
        apply Ha. by subst after.
      * (* w = l ++ l', c :: t2 = l' ++ after *)
        destruct l' as [|x l'].
        -- rewrite app_nil_r in *. simpl in E. subst after.
           left. exists before, []. rewrite app_nil_r.
           repeat split; done.
        -- simpl in E. injection E as <- _.
           apply Forall_app in Hw as [_ Hw].
           apply Forall_cons in Hw as [Hw _]. congruence.
    + (* before = t1 ++ l, c :: t2 = l ++ w ++ after *)
      destruct l as [|x l].
      * simpl in E. destruct w as [|x w]; [simpl in Hlen; lia|].
        simpl in E. injection E as <- _.
        apply Forall_cons in Hw as [Hw _]. congruence.
      * simpl in E. injection E as <- ->.
        right. exists l, after. repeat split; try done.
        intros c' Hc'. apply Hb.
        rewrite last_app. rewrite last_cons, Hc'. done.
  - intros [(before & after & -> & Hlen & Hw & Hb & Ha)
           |(before & after & -> & Hlen & Hw & Hb & Ha)].
    + exists before, (after ++ c :: t2). repeat split; try done.
      { by rewrite <- !app_assoc. }
      intros c' Hc'. destruct after as [|x after].
      * simpl in Hc'. by injection Hc' as <-.
      * apply Ha. done.
    + exists (t1 ++ c :: before), after. repeat split; try done.
      { by rewrite <- app_assoc. }
      intros c' Hc'. rewrite last_app, last_cons in Hc'.
      destruct (last before) as [x|] eqn:E.
      * injection Hc' as <-. by apply Hb.
      * by injection Hc' as <-.
Qed.

Lemma flush_word_of cur w :
  Forall (fun c => is_word c = true) cur ->
  w ∈ flush cur <-> word_of (rev cur) w.
Proof.
  intros Hcur. rewrite word_of_whole by by apply List.Forall_rev.
  unfold flush. rewrite length_rev.
  destruct (3 <=? length cur)%nat eqn:E.
  - apply Nat.leb_le in E. rewrite list_elem_of_singleton. tauto.
  - apply Nat.leb_nle in E. rewrite elem_of_nil. tauto.
Qed.

Lemma word_runs_word_of s cur w :
  Forall (fun c => is_word c = true) cur ->
  w ∈ word_runs s cur <-> word_of (rev cur ++ s) w.
Proof.
  revert cur. induction s as [|c s IH]; intros cur Hcur; simpl.
  - rewrite app_nil_r. by apply flush_word_of.
  - destruct (is_word c) eqn:Ec.
    + rewrite IH by by constructor. simpl. by rewrite <- app_assoc.
    + rewrite elem_of_app, (word_of_split _ _ _ _ Ec).
      rewrite flush_word_of by done.
      rewrite (IH []) by constructor. done.
Qed.

(** The words of an answer are all the words of its lowercased text. *)
Lemma keywords_word_of s w : w ∈ keywords s <-> word_of (str_lower s) w.
Proof.
  unfold keywords, findall_words. rewrite elem_of_list_to_set.
  by rewrite word_runs_word_of by constructor.
Qed.

(** The words of the sources are all the words of the lowercased content
    of every source that has a content. *)
Lemma source_keywords_word_of sources w :
  w ∈ source_keywords_of sources <->
  exists content, Some content ∈ sources /\ word_of (str_lower content) w.
Proof.
  unfold source_keywords_of.
  assert (G : forall acc : gset pystr,
    w ∈ fold_left
          (fun acc source =>
             match source with
             | Some content => acc ∪ keywords content
             | None => acc
             end) sources acc
    <-> w ∈ acc \/
        exists content, Some content ∈ sources /\
                        word_of (str_lower content) w).
  { induction sources as [|[content|] l IH]; intros acc; simpl.
    - split; [auto|]. intros [?|(? & []%elem_of_nil & _)]. done.
    - rewrite IH, elem_of_union, keywords_word_of. split.
      + intros [[?|?]|(c' & ? & ?)]; [auto| |].
        * right. exists content. split; [left|done].
        * right. exists c'. split; [by right|done].
      + intros [?|(c' & [[= ->]|?]%elem_of_cons & ?)]; [auto|auto|].
        right. eauto.
    - rewrite IH. split.
      + intros [?|(c' & ? & ?)]; [auto|]. right. exists c'.
        split; [by right|done].
      + intros [?|(c' & [[=]|?]%elem_of_cons & ?)]; [auto|]. right. eauto. }
  rewrite G. split; [intros [[]%elem_of_empty|?]; done|auto].
Qed.

End Words.

(** *** The composite score *)

Section Composite.
Context {U : Unicode}.

(** |answer_words ∩ source_words| / |answer_words| *)
Definition overlap_ratio (answer : pystr) (sources : list source_dict)
    : float :=
  (float_of_nat (size (keywords answer ∩ source_keywords_of sources))
   / float_of_nat (size (keywords answer)))%float.

Definition clamp01 (x : float) : float :=
  if (x <? 0.0)%float then 0.0%float
  else if (1.0 <? x)%float then 1.0%float else x.

(** The composite as the specification words it: each table entry is
    weighted once more, and the third term is the overlap ratio. *)
Definition spec_quality_score (answer : pystr) (sources : list source_dict)
    : float :=
  clamp01
    (0.4 * (if basic_is_valid (_validate_basic_answer answer) then 1.0 else 0.0)
     + 0.3 * hallucination_score (risk_level (_check_hallucination answer))
     + 0.2 * overlap_ratio answer sources
     + 0.1 * confidence_score
               (confidence_level (_analyze_confidence_keywords answer)))%float.

(** The consistency score the code computes: 0 without sources, the
    overlap ratio when that is below 0.3 (both word sets being non-empty),
    and 1 otherwise. *)
Definition consistency_of (answer : pystr) (sources : list source_dict)
    : SourceConsistency :=
  match sources with
  | [] =>
    {| is_consistent := false; consistency_score := 0.0;
       source_coverage := 0.0 |}
  | _ :: _ =>
    if bool_decide (keywords answer ≠ ∅)
       && bool_decide (source_keywords_of sources ≠ ∅)
    then
      if (overlap_ratio answer sources <? 0.3)%float
      then {| is_consistent := false;
              consistency_score := overlap_ratio answer sources;
              source_coverage := overlap_ratio answer sources |}
      else {| is_consistent := true; consistency_score := 1.0;
              source_coverage := overlap_ratio answer sources |}
    else {| is_consistent := true; consistency_score := 1.0;
            source_coverage := 0.0 |}
  end.

Lemma validate_source_consistency_cases answer sources :
  _validate_source_consistency answer sources = consistency_of answer sources.
Proof.
  unfold _validate_source_consistency, consistency_of, overlap_ratio.
  destruct sources; [reflexivity|].
  destruct (bool_decide _ && bool_decide _); [|reflexivity].
  destruct (_ <? _)%float; reflexivity.
Qed.

Local Ltac closed_float :=
  unfold not_negative, is_number; vm_compute; first [exact I | reflexivity].

Lemma consistency_score_not_negative answer sources :
  not_negative
    (consistency_score (_validate_source_consistency answer sources)).
Proof.
  rewrite validate_source_consistency_cases. unfold consistency_of.
  destruct sources; [closed_float|].
  destruct (bool_decide _ && bool_decide _); [|closed_float].
  destruct (_ <? _)%float; [|closed_float].
  apply not_negative_count_ratio.
Qed.

Lemma py_min_one_bounds s :
  not_negative s ->
  (0.0 <=? py_min 1.0 s)%float = true /\ (py_min 1.0 s <=? 1.0)%float = true.
Proof.
  intros Hs. unfold py_min. destruct (s <? 1.0)%float eqn:E.
  - split; [|by apply ltb_leb].
    apply not_ltb_leb; [by apply (ltb_is_number_l s 1.0)|closed_float|].
    apply not_negative_ltb; [done|reflexivity|reflexivity].
  - split; reflexivity.
Qed.

Lemma consistency_score_bounds answer sources :
  let c := consistency_score (_validate_source_consistency answer sources) in
  (0.0 <=? c)%float = true /\ (c <=? 1.0)%float = true.
Proof.
  cbn zeta.
  pose proof (consistency_score_not_negative answer sources) as Hnn.
  revert Hnn. rewrite validate_source_consistency_cases. unfold consistency_of.
  destruct sources; [split; reflexivity|].
  destruct (bool_decide _ && bool_decide _); [|split; reflexivity].
  destruct (_ <? _)%float eqn:E; [|split; reflexivity].
  cbn [consistency_score]. intros Hnn. split.
  - apply not_ltb_leb; [by apply (ltb_is_number_l _ 0.3)|closed_float|].
    apply not_negative_ltb; [done|reflexivity|reflexivity].
  - apply (leb_trans _ 0.3); [by apply ltb_leb|reflexivity].
Qed.

(** The four terms of the composite, each with its weight in it, added in
    the order of the code. *)
Definition weighted_sum (valid : bool) (hl : level) (consistency : float)
    (cl : level) : float :=
  ((((if valid then 0.4 else 0.0)
     + match hl with low => 0.3 | medium => 0.15 | high => 0.0 end)
    + 0.2 * consistency)
   + match cl with high => 0.1 | medium => 0.05 | low => 0.0 end)%float.

Lemma calculate_quality_score_sum b h s c :
  _calculate_quality_score b h s c =
  let sum := weighted_sum (basic_is_valid b) (risk_level h)
               (consistency_score s) (confidence_level c) in
  if (sum <? 1.0)%float then sum else 1.0%float.
Proof.
  unfold _calculate_quality_score, weighted_sum, py_min,
    hallucination_score, confidence_score.
  destruct (basic_is_valid b), (risk_level h), (confidence_level c);
    reflexivity.
Qed.

Lemma weighted_sum_not_negative valid hl c cl :
  not_negative c -> not_negative (weighted_sum valid hl c cl).
Proof.
  intros Hc. unfold weighted_sum.
  repeat apply not_negative_add.
  - destruct valid; closed_float.
  - destruct hl; closed_float.
  - apply not_negative_mul; [closed_float|done].
  - destruct cl; closed_float.
Qed.

End Composite.

(** C2 (as stated) fails: for the grounded answer of the running example
    the code scores 0.4 + 0.3 + 0.2 + 0.0 (about 0.9), the formula of the
    specification 0.4 + 0.09 + 0.2 + 0.0 (about 0.69). *)
Lemma quality_score_is_not_doubly_weighted :
  let r := validate_answer (py "전압은?") hedged_answer [Some hedged_answer] 0.8 in
  quality_score r = 0.8999999999999999%float /\
  spec_quality_score hedged_answer [Some hedged_answer] = 0.69%float /\
  (spec_quality_score hedged_answer [Some hedged_answer] + 0.2
     <? quality_score r)%float = true.
Proof. vm_compute. repeat split; reflexivity. Qed.

(** C2 (amended): the quality score is min(1, s) for the sum s of four
    terms, each already carrying its weight: 0.4 if the answer is
    basic-valid (else 0), {low: 0.3, medium: 0.15, high: 0.0} by
    hallucination level, 0.2 times the consistency score, and {high: 0.1,
    medium: 0.05, low: 0.0} by confidence-keyword level.  The consistency
    score is 0 without sources, the word-overlap ratio
    |answer words ∩ source words| / |answer words| when both word sets are
    non-empty and that ratio is below 0.3, and 1 otherwise, the words being
    all the words of three or more word characters of the lowercased answer
    and of the lowercased content of every source.  The first, second and
    fourth terms are at most 0.4, 0.3 and 0.1, the consistency score lies
    in [0, 1], and so does the result. *)
Theorem quality_score_composite {U : Unicode}
    (question answer : pystr) (sources : list source_dict)
    (confidence : float) :
  let r := validate_answer question answer sources confidence in
  let d := validation_details r in
  let validity := if is_valid r then 0.4%float else 0.0%float in
  let risk :=
    match risk_level (hallucination d) with
    | low => 0.3%float | medium => 0.15%float | high => 0.0%float
    end in
  let grounding := (0.2 * consistency_score (source_consistency d))%float in
  let wording :=
    match confidence_level (confidence_keywords d) with
    | high => 0.1%float | medium => 0.05%float | low => 0.0%float
    end in
  let s := (((validity + risk) + grounding) + wording)%float in
  quality_score r = (if (s <? 1.0)%float then s else 1.0%float) /\
  is_valid r = basic_is_valid (_validate_basic_answer answer) /\
  hallucination d = _check_hallucination answer /\
  confidence_keywords d = _analyze_confidence_keywords answer /\
  source_consistency d = consistency_of answer sources /\
  (forall w, w ∈ keywords answer <-> word_of (str_lower answer) w) /\
  (forall w, w ∈ source_keywords_of sources <->
     exists content,
       Some content ∈ sources /\ word_of (str_lower content) w) /\
  (validity <=? 0.4)%float = true /\
  (risk <=? 0.3)%float = true /\
  (wording <=? 0.1)%float = true /\
  (0.0 <=? consistency_score (source_consistency d))%float = true /\
  (consistency_score (source_consistency d) <=? 1.0)%float = true /\
  (0.0 <=? quality_score r)%float = true /\
  (quality_score r <=? 1.0)%float = true.
Proof.
  cbn zeta. unfold validate_answer.
  cbn [validation_details hallucination source_consistency confidence_keywords
       quality_score is_valid].
  rewrite calculate_quality_score_sum. cbn zeta. unfold weighted_sum.
  split; [reflexivity|]. split; [reflexivity|]. split; [reflexivity|].
  split; [reflexivity|].
  split; [apply validate_source_consistency_cases|].
  split; [apply keywords_word_of|].
  split; [apply source_keywords_word_of|].
  split; [by destruct (basic_is_valid _)|].
  split; [by destruct (risk_level _)|].
  split; [by destruct (confidence_level _)|].
  split; [apply consistency_score_bounds|].
  split; [apply consistency_score_bounds|].
  pose proof (py_min_one_bounds
    (weighted_sum (basic_is_valid (_validate_basic_answer answer))
       (risk_level (_check_hallucination answer))
       (consistency_score (_validate_source_consistency answer sources))
       (confidence_level (_analyze_confidence_keywords answer)))
    (weighted_sum_not_negative _ _ _ _
       (consistency_score_not_negative answer sources))) as H.
  exact H.
Qed.

(** *** Source consistency *)

Definition half_grounded_answer : pystr :=
  py "the operating voltage is 1.1V nominal".
Definition half_grounding_source : source_dict :=
  Some (py "Operating voltage range").

(** C6 (as stated) fails: two of the four words of the answer occur in the
    source, the overlap ratio is 0.5, and the consistency score is 1.0. *)
Lemma consistency_score_is_not_the_ratio :
  let r := validate_answer (py "voltage?") half_grounded_answer
             [half_grounding_source] 0.8 in
  let sc := source_consistency (validation_details r) in
  size (keywords half_grounded_answer) = 4 /\
  size (keywords half_grounded_answer
          ∩ source_keywords_of [half_grounding_source]) = 2 /\
  overlap_ratio half_grounded_answer [half_grounding_source] = 0.5%float /\
  source_coverage sc = 0.5%float /\
  consistency_score sc = 1.0%float /\
  is_consistent sc = true.
Proof. vm_compute. repeat split; reflexivity. Qed.

(** C6 (amended): with an empty sources list the check reports inconsistent
    with consistency score 0; with sources, and both word sets non-empty,
    the coverage is |answer_words ∩ source_words| / |answer_words|, the
    answer words being all the words of three or more word characters of
    the lowercased answer and the source words all such words of the
    lowercased content of every source; a coverage below 0.3 flags the
    answer inconsistent with the coverage as consistency score, while any
    other coverage leaves it consistent with consistency score 1; when a
    word set is empty the answer is consistent with score 1 and coverage 0;
    an inconsistent answer, and only that, has its confidence multiplied by
    0.7 (after the 0.5 of a high hallucination risk). *)
Theorem source_consistency_and_penalty {U : Unicode}
    (question answer : pystr) (sources : list source_dict)
    (confidence : float) :
  let r := validate_answer question answer sources confidence in
  let d := validation_details r in
  (forall w, w ∈ keywords answer <-> word_of (str_lower answer) w) /\
  (forall w, w ∈ source_keywords_of sources <->
     exists content,
       Some content ∈ sources /\ word_of (str_lower content) w) /\
  source_consistency d =
    match sources with
    | [] =>
      {| is_consistent := false; consistency_score := 0.0;
         source_coverage := 0.0 |}
    | _ :: _ =>
      let coverage :=
        (float_of_nat (size (keywords answer ∩ source_keywords_of sources))
         / float_of_nat (size (keywords answer)))%float in
      if decide (keywords answer = ∅ \/ source_keywords_of sources = ∅)
      then {| is_consistent := true; consistency_score := 1.0;
              source_coverage := 0.0 |}
      else if (coverage <? 0.3)%float
      then {| is_consistent := false; consistency_score := coverage;
              source_coverage := coverage |}
      else {| is_consistent := true; consistency_score := 1.0;
              source_coverage := coverage |}
    end /\
  source_consistency d = consistency_of answer sources /\
  (forall w, w ∈ keywords answer ∪ source_keywords_of sources ->
     3 <= length w /\ Forall (fun c => is_word c = true) w) /\
  confidence_adjusted r =
    (let c := if bool_decide (risk_level (hallucination d) = high)
              then (confidence * 0.5)%float else confidence in
     if is_consistent (source_consistency d)
     then c else (c * 0.7)%float).
Proof.
  cbn zeta. unfold validate_answer.
  cbn [validation_details hallucination source_consistency confidence_adjusted].
  split; [apply keywords_word_of|].
  split; [apply source_keywords_word_of|].
  split.
  { rewrite validate_source_consistency_cases.
    unfold consistency_of, overlap_ratio.
    destruct sources as [|source sources]; [reflexivity|].
    destruct (decide (_ \/ _)) as [[E|E]|E].
    - rewrite (bool_decide_eq_false_2 (keywords answer ≠ ∅)) by auto.
      reflexivity.
    - rewrite (bool_decide_eq_false_2 (source_keywords_of _ ≠ ∅)) by auto.
      by rewrite andb_false_r.
    - rewrite !bool_decide_eq_true_2 by (intros ?; apply E; auto).
      reflexivity. }
  split; [apply validate_source_consistency_cases|].
  split; [|reflexivity].
  intros w [Hw|Hw]%elem_of_union.
  - apply keywords_word_of in Hw as (? & ? & _ & ? & ? & _). done.
  - apply source_keywords_word_of in Hw
      as (? & _ & ? & ? & _ & ? & ? & _). done.
Qed.

(** *** The self-test runner *)

Section SelfTest.
Context {U : Unicode}.

(** The verdict of the specification on one case. *)
Definition expected_verdict (test_case : TestCase) (v : ValidationResult)
    : Prop :=
  (default true (tc_expected_validation test_case) = true /\
   is_valid v = true /\ (0.5 <=? quality_score v)%float = true) \/
  (default true (tc_expected_validation test_case) = false /\
   (is_valid v = false \/ (quality_score v <? 0.5)%float = true)).

Lemma case_passed_verdict test_case v :
  case_passed test_case v = true <-> expected_verdict test_case v.
Proof.
  unfold case_passed, expected_verdict.
  destruct (default true (tc_expected_validation test_case)).
  - rewrite andb_true_iff. intuition discriminate.
  - rewrite orb_true_iff, negb_true_iff. intuition discriminate.
Qed.

Definition count_passed (l : list TestResult) : nat :=
  length (filter (fun t => tr_passed t = true) l).
Definition count_failed (l : list TestResult) : nat :=
  length (filter (fun t => tr_passed t = false) l).

Lemma fold_selftest_step (g : nat -> nat) cases p f rs :
  fold_left selftest_step (imap (fun i tc => (g i, tc)) cases) (p, f, rs) =
  (p + count_passed (imap (fun i => run_case (g i)) cases),
   f + count_failed (imap (fun i => run_case (g i)) cases),
   rs ++ imap (fun i => run_case (g i)) cases).
Proof.
  unfold count_passed, count_failed.
  revert g p f rs. induction cases as [|tc cases IH]; intros g p f rs.
  - simpl. by rewrite !Nat.add_0_r, app_nil_r.
  - simpl. unfold selftest_step at 2. cbn [fst snd].
    destruct (tr_passed (run_case (g 0) tc)) eqn:E.
    + etrans; [apply (IH (g ∘ S))|]. unfold compose.
      rewrite filter_cons_True by done.
      rewrite filter_cons_False by (rewrite E; done).
      rewrite <- app_assoc. simpl. f_equal. f_equal; lia.
    + etrans; [apply (IH (g ∘ S))|]. unfold compose.
      rewrite filter_cons_False by (rewrite E; done).
      rewrite filter_cons_True by done.
      rewrite <- app_assoc. simpl. f_equal. f_equal; lia.
Qed.

Lemma imap_run_case_verdicts (g : nat -> nat) cases :
  Forall2
    (fun test_case t =>
       tr_validation_result t =
         validate_answer (default [] (tc_question test_case))
           (default [] (tc_actual_answer test_case))
           (default [] (tc_sources test_case))
           (default 0.5%float (tc_confidence test_case)) /\
       (tr_passed t = true <->
        expected_verdict test_case (tr_validation_result t)))
    cases (imap (fun i => run_case (g i)) cases).
Proof.
  revert g. induction cases as [|tc l IH]; intros g; simpl; constructor.
  - split; [reflexivity|]. apply case_passed_verdict.
  - apply (IH (g ∘ S)).
Qed.

End SelfTest.

(** C9: run_selftest judges each case as the specification says, counts the
    cases, and scores passed / total, 0 for an empty list. *)
Theorem run_selftest_verdicts {U : Unicode}
    (now : pystr) (test_cases : list TestCase) :
  let r := run_selftest now test_cases in
  total_tests r = length test_cases /\
  Forall2
    (fun test_case t =>
       tr_validation_result t =
         validate_answer (default [] (tc_question test_case))
           (default [] (tc_actual_answer test_case))
           (default [] (tc_sources test_case))
           (default 0.5%float (tc_confidence test_case)) /\
       (tr_passed t = true <->
        expected_verdict test_case (tr_validation_result t)))
    test_cases (test_results r) /\
  passed r = count_passed (test_results r) /\
  failed r = count_failed (test_results r) /\
  passed r + failed r = total_tests r /\
  overall_score r =
    match test_cases with
    | [] => 0.0%float
    | _ :: _ => (float_of_nat (passed r) / float_of_nat (total_tests r))%float
    end.
Proof.
  cbn zeta. unfold run_selftest.
  cbn [total_tests test_results passed failed overall_score].
  rewrite (fold_selftest_step (fun i => i)). cbn [fst snd app].
  set (rs := imap (fun i => run_case i) test_cases).
  assert (Hlen : length rs = length test_cases) by apply length_imap.
  split; [reflexivity|]. split.
  { apply (imap_run_case_verdicts (fun i => i)). }
  split; [reflexivity|]. split; [reflexivity|]. split.
  { rewrite <- Hlen. unfold count_passed, count_failed. clear.
    induction rs as [|t rs IH]; [reflexivity|].
    destruct (tr_passed t) eqn:E.
    - rewrite filter_cons_True by done.
      rewrite filter_cons_False by (rewrite E; done). simpl. lia.
    - rewrite filter_cons_False by (rewrite E; done).
      rewrite filter_cons_True by done. simpl. lia. }
  destruct test_cases; reflexivity.
Qed.

End QualityProps.

(* --------------------------------------------------------------------- *)
(** ** Orchestration and fusion                                           *)
(* --------------------------------------------------------------------- *)

Module MultiSourceProps.
Import Quality MultiSource FloatFacts.
Local Open Scope string_scope.
Local Open Scope list_scope.

(** *** Sorting *)

Section Sorting.
Context {A : Type} (key : A -> float).

(** [b] does not come before [a] wrongly: its key is at most [a]'s. *)
Definition above (a b : A) : Prop := (key b <=? key a)%float = true.

Definition descending (l : list A) : Prop := StronglySorted above l.

Definition keys_are_numbers (l : list A) : Prop :=
  Forall (fun x => is_number (key x)) l.

Lemma insert_desc_perm x l : insert_desc key x l ≡ₚ x :: l.
Proof.
  induction l as [|y l IH]; simpl; [done|].
  destruct (key x <? key y)%float; [|done].
  rewrite IH. apply Permutation_swap.
Qed.

Lemma sort_desc_perm l : sort_desc key l ≡ₚ l.
Proof.
  induction l as [|x l IH]; simpl; [done|].
  rewrite insert_desc_perm. by rewrite IH.
Qed.

Lemma insert_desc_descending x l :
  is_number (key x) -> keys_are_numbers l ->
  descending l -> descending (insert_desc key x l).
Proof.
  intros Hx. induction l as [|y l IH]; intros Hl Hs; simpl.
  - repeat constructor.
  - apply Forall_cons in Hl as [Hy Hl].
    apply StronglySorted_inv in Hs as [Hs Hall].
    destruct (key x <? key y)%float eqn:E.
    + constructor; [by apply IH|].
      rewrite insert_desc_perm. constructor; [|done].
      by apply ltb_leb.
    + assert (Hyx : above x y) by by apply not_ltb_leb.
      constructor; [by constructor|].
      constructor; [done|].
      eapply Forall_impl; [exact Hall|].
      intros z Hz. unfold above in *. by eapply leb_trans.
Qed.

Lemma sort_desc_descending l :
  keys_are_numbers l -> descending (sort_desc key l).
Proof.
  induction l as [|x l IH]; intros Hl; simpl; [constructor|].
  apply Forall_cons in Hl as [Hx Hl].
  apply insert_desc_descending; [done| |by apply IH].
  unfold keys_are_numbers. by rewrite sort_desc_perm.
Qed.

Lemma descending_take n l : descending l -> descending (take n l).
Proof.
  intros Hs. revert n. induction Hs as [|x l Hs IH Hall]; intros [|n];
    simpl; try constructor; [apply IH|by apply Forall_take].
Qed.

End Sorting.

(** *** The search phase *)

(** The entry of the [i]-th requested source. *)
Definition entry_of (w : World) (i : nat) (ty : DataSource) : processed :=
  match run_task w i ty with
  | Raised e => Entry (failed_result ty e)
  | Returned r => Entry r
  | Cancelled e => Leftover e
  end.

Lemma process_results_imap w pre suf :
  process_results (pre ++ suf) (length pre)
    (imap (fun j => run_task w (length pre + j)) suf)
  = inr (imap (fun j => entry_of w (length pre + j)) suf).
Proof.
  revert pre. induction suf as [|d suf IH]; intros pre; [reflexivity|].
  simpl imap. simpl process_results. unfold compose.
  rewrite Nat.add_0_r.
  assert (Hrest :
    process_results (pre ++ d :: suf) (S (length pre))
      (imap (fun j => run_task w (length pre + S j)) suf)
    = inr (imap (fun j => entry_of w (length pre + S j)) suf)).
  { specialize (IH (pre ++ [d])).
    rewrite <- app_assoc, length_app in IH. simpl in IH.
    rewrite Nat.add_1_r in IH.
    erewrite (imap_ext _ (fun j => run_task w (S (length pre) + j))),
             (imap_ext (fun j => entry_of w (length pre + S j))
                       (fun j => entry_of w (S (length pre) + j)));
      [exact IH| |]; intros; simpl; f_equal; lia. }
  unfold entry_of at 1.
  destruct (run_task w (length pre) d) as [e|r|e].
  - rewrite list_lookup_middle by done.
    unfold mbind, Result_bind, ret. rewrite Hrest. reflexivity.
  - unfold mbind, Result_bind, ret. rewrite Hrest. reflexivity.
  - unfold mbind, Result_bind, ret. rewrite Hrest. reflexivity.
Qed.

(** The search phase never raises: it returns one element per requested
    source, in request order. *)
Lemma execute_search_entries w request :
  _execute_multi_source_search w request
  = inr (imap (entry_of w) (data_sources request)).
Proof.
  unfold _execute_multi_source_search.
  pose proof (process_results_imap w [] (data_sources request)) as H.
  simpl in H. destruct (data_sources request); [reflexivity|exact H].
Qed.

(** A search task does not let an exception of its [try] block out: it
    returns a failed result without evidence, with the description of the
    exception and the time measured. *)
Lemma task_result_catches ty e t :
  task_result ty (inl e) t =
    {| result_source_type := ty; results := []; search_time_ms := t;
       total_found := 0; status := "failed";
       error_message := Some (exc_str e) |}.
Proof. reflexivity. Qed.

(** Whatever a search task returns, only a successful result carries
    evidence. *)
Lemma search_tasks_evidence request body t r :
  r ∈ [_search_documents body t; _search_database body t;
       _search_web request body t] ->
  status r ≠ "success" -> results r = [].
Proof.
  unfold _search_documents, _search_database, _search_web, task_result.
  intros Hr Hs. repeat (apply elem_of_cons in Hr as [->|Hr]);
    [| | |by apply elem_of_nil in Hr];
    destruct body; try destruct (negb _); simpl in *; congruence.
Qed.

(** Reading the status of every element succeeds exactly when every
    element is a search result. *)
Lemma read_all_entries found : read_all (Entry <$> found) = inr found.
Proof.
  induction found as [|r found IH]; [reflexivity|].
  cbn [fmap list_fmap read_all]. rewrite IH. reflexivity.
Qed.

Lemma read_all_inv l found : read_all l = inr found -> l = Entry <$> found.
Proof.
  revert found. induction l as [|[r|e] l IH]; intros found; cbn [read_all].
  - by intros [= <-].
  - destruct (read_all l) as [e|rs]; [discriminate|].
    intros [= <-]. cbn [fmap list_fmap]. f_equal. by apply IH.
  - discriminate.
Qed.

Lemma entries_inj (l1 l2 : list SourceSearchResult) :
  Entry <$> l1 = Entry <$> l2 -> l1 = l2.
Proof.
  revert l2. induction l1 as [|r1 l1 IH]; intros [|r2 l2]; try done.
  cbn [fmap list_fmap]. intros [= -> H]. f_equal. by apply IH.
Qed.

(** *** Fusion *)

Definition successes (l : list SourceSearchResult) : list SourceSearchResult :=
  filter (fun r => is_status "success" r = true) l.

(** The evidence of the successful results, in arrival order. *)
Definition evidence (l : list SourceSearchResult) : list MultiSourceInfo :=
  successes l ≫= results.

(** The count reported for a source type: that of the last successful
    result of the type, if there is one. *)
Definition reported_count (ty : DataSource) (l : list SourceSearchResult)
    : option nat :=
  (fun r => length (results r)) <$>
    last (filter (fun r => result_source_type r = ty) (successes l)).

Lemma fold_combine_step_evidence l acc m :
  (fold_left combine_step l (acc, m)).1 = acc ++ evidence l.
Proof.
  revert acc m. induction l as [|r l IH]; intros acc m; simpl.
  - by rewrite app_nil_r.
  - unfold combine_step at 2, evidence, successes.
    destruct (is_status "success" r) eqn:E.
    + rewrite filter_cons_True by done. simpl.
      rewrite IH. by rewrite <- app_assoc.
    + rewrite filter_cons_False by (rewrite E; done). apply IH.
Qed.

Lemma fold_combine_step_counts l acc m ty :
  (fold_left combine_step l (acc, m)).2 !! ty =
  match reported_count ty l with
  | Some n => Some n
  | None => m !! ty
  end.
Proof.
  revert acc m. induction l as [|r l IH]; intros acc m; simpl; [done|].
  unfold combine_step at 2, reported_count, successes.
  destruct (is_status "success" r) eqn:E.
  - rewrite filter_cons_True by done. rewrite IH.
    unfold reported_count, successes.
    cbn [snd].
    destruct (decide (result_source_type r = ty)) as [<-|Hne].
    + rewrite (filter_cons_True (fun r0 => result_source_type r0 = _))
        by done.
      rewrite last_cons.
      destruct (last _); simpl; [done|]. by rewrite lookup_insert_eq.
    + rewrite (filter_cons_False (fun r0 => result_source_type r0 = _))
        by done.
      destruct (last _); simpl; [done|]. by rewrite lookup_insert_ne.
  - rewrite filter_cons_False by (rewrite E; done). apply IH.
Qed.

(** The loop of the fusion goes through exactly when every element is a
    search result, and is then the fold of its step. *)
Lemma combine_loop_read_all l acc :
  combine_loop l acc =
  match read_all l with
  | inl e => inl e
  | inr found => inr (fold_left combine_step found acc)
  end.
Proof.
  revert acc. induction l as [|[r|e] l IH]; intros acc;
    cbn [combine_loop read_all]; [reflexivity| |reflexivity].
  rewrite IH. unfold mbind, Result_bind, ret.
  destruct (read_all l); reflexivity.
Qed.

Section Fusion.
Context {U : Unicode}.

(** What [_combine_and_generate_answer] returns when the generation
    returns [answer]. *)
Definition combined_response (w : World) (request : MultiSourceQueryRequest)
    (found : list SourceSearchResult) (answer : pystr)
    : MultiSourceQueryResponse :=
  let top_sources := take 10 (sort_desc relevance_score (evidence found)) in
  {| answer := answer;
     confidence :=
       confidence_adjusted
         (validate_answer (question request) answer
            (map (fun source => Some (content source)) top_sources) 0.8);
     sources := top_sources;
     query_time_ms := 0;
     model_used := model w;
     sources_by_type := (fold_left combine_step found ([], ∅)).2;
     search_strategy := "balanced";
     total_sources_searched := length (evidence found) |}.

Lemma combine_and_generate_cases w request found :
  _combine_and_generate_answer w request (Entry <$> found) =
  match generate_response w (question request) (user_role request)
          (take 10 (sort_desc relevance_score (evidence found))) with
  | inl e => inl e
  | inr answer => inr (combined_response w request found answer)
  end.
Proof.
  unfold _combine_and_generate_answer, combined_response.
  rewrite combine_loop_read_all, read_all_entries.
  pose proof (fold_combine_step_evidence found [] ∅) as E. simpl in E.
  unfold mbind, Result_bind, ret. rewrite E. cbn [app].
  destruct (generate_response _ _ _ _); [reflexivity|].
  do 2 f_equal.
  by rewrite (Permutation_length (sort_desc_perm relevance_score _)).
Qed.

(** A cancelled task makes the fusion raise. *)
Lemma combine_and_generate_leftover w request l e :
  read_all l = inl e -> _combine_and_generate_answer w request l = inl e.
Proof.
  intros E. unfold _combine_and_generate_answer.
  rewrite combine_loop_read_all, E. reflexivity.
Qed.

Lemma query_cases w request :
  query w request =
  match read_all (imap (entry_of w) (data_sources request)) with
  | inl e => inl e
  | inr found =>
    if combine_results request then
      match generate_response w (question request) (user_role request)
              (take 10 (sort_desc relevance_score (evidence found))) with
      | inl e => inl e
      | inr answer =>
        inr (Combined (with_query_time (query_elapsed_ms w)
                         (combined_response w request found answer)))
      end
    else
      inr (Individual
             {| search_question := question request;
                source_results := found;
                total_search_time_ms := query_elapsed_ms w;
                successful_sources := count_status "success" found;
                failed_sources := count_status "failed" found |})
  end.
Proof.
  unfold query. rewrite execute_search_entries.
  unfold mbind at 1, Result_bind at 1. cbn zeta.
  destruct (read_all _) as [e|found] eqn:E.
  - destruct (combine_results request); [|reflexivity].
    by rewrite (combine_and_generate_leftover _ _ _ e).
  - apply read_all_inv in E as ->.
    destruct (combine_results request).
    + rewrite combine_and_generate_cases.
      unfold mbind, Result_bind, ret.
      destruct (generate_response _ _ _ _); reflexivity.
    + reflexivity.
Qed.

(** Every item of the evidence is an item of a successful result. *)
Lemma evidence_from_success found x :
  x ∈ evidence found ->
  exists sr, sr ∈ found /\ status sr = "success" /\ x ∈ results sr.
Proof.
  unfold evidence, successes.
  intros (sr & Hx & Hsr)%list_elem_of_bind.
  apply list_elem_of_filter in Hsr as [Hs Hsr].
  exists sr. repeat split; [done| |done].
  by apply String.eqb_eq.
Qed.

Lemma elem_of_imap_entry w ds found sr :
  imap (entry_of w) ds = Entry <$> found ->
  sr ∈ found ->
  exists i ty, ds !! i = Some ty /\ entry_of w i ty = Entry sr.
Proof.
  intros Hfound (i & Hi)%list_elem_of_lookup.
  assert (H : (Entry <$> found) !! i = Some (Entry sr))
    by by rewrite list_lookup_fmap, Hi.
  rewrite <- Hfound, list_lookup_imap in H.
  destruct (ds !! i) as [ty|] eqn:E; [|done].
  injection H as H. eauto.
Qed.

End Fusion.

(** *** A small deployment, for concrete runs *)

Definition doc_item : MultiSourceInfo :=
  {| source_type := DOCUMENTS; source_id := py "doc-1";
     content := py "DDR5 operating voltage is 1.1V nominal";
     relevance_score := 0.9; metadata := [];
     document_name := Some (py "ddr5.pdf"); page_number := Some 3%Z;
     section := None; url := None; web_source := None |}.

Definition db_item : MultiSourceInfo :=
  {| source_type := DATABASE; source_id := py "meta-7";
     content := py "DDR5 datasheet revision history";
     relevance_score := 0.6; metadata := [];
     document_name := None; page_number := None;
     section := None; url := None; web_source := None |}.

Definition web_item : MultiSourceInfo :=
  {| source_type := WEB_SEARCH; source_id := py "https://example.org/ddr5";
     content := py "DDR5 modules operate at 1.1V";
     relevance_score := 0.5; metadata := [];
     document_name := None; page_number := None; section := None;
     url := Some (py "https://example.org/ddr5");
     web_source := Some (py "example.org") |}.

Definition sample_request (requested : list DataSource) (web combine : bool)
    : MultiSourceQueryRequest :=
  {| question := py "DDR5 voltage?"; user_role := ENGINEER;
     data_sources := requested; document_filter := None;
     top_k_per_source := 3; enable_web_search := web;
     web_search_query := None; combine_results := combine |}.

(** A world in which each source type ends one way and the generation
    returns one text. *)
Definition sample_world (tasks : DataSource -> task_outcome) (text : pystr)
    : World :=
  {| run_task := fun _ ty => tasks ty;
     generate_response := fun _ _ _ => inr text;
     model := py "qwen2:0.5b";
     query_elapsed_ms := 42 |}.

(** All three searches return evidence. *)
Definition all_succeed (ty : DataSource) : task_outcome :=
  match ty with
  | DOCUMENTS => Returned (_search_documents (inr [doc_item]) 12)
  | DATABASE => Returned (_search_database (inr [db_item]) 7)
  | WEB_SEARCH =>
    Returned (_search_web (sample_request [] true true) (inr [web_item]) 30)
  end.

(** The database search fails inside its own [try], the web search is
    switched off. *)
Definition only_documents_succeed (ty : DataSource) : task_outcome :=
  match ty with
  | DOCUMENTS => Returned (_search_documents (inr [doc_item]) 12)
  | DATABASE =>
    Returned (_search_database
                (inl {| exc_str := py "database is locked" |}) 7)
  | WEB_SEARCH =>
    Returned (_search_web (sample_request [] false true) (inr [web_item]) 30)
  end.

Definition grounded_text : pystr := py "DDR5 operating voltage is 1.1V".
Definition ungrounded_text : pystr := py "Please consult your vendor".

(** Backends in which each source type ends one way, with 12, 7 and 30
    milliseconds measured, and the model server returns one text. *)
Definition sample_backends (blocks : DataSource -> try_outcome)
    (text : pystr) : Backends :=
  {| search_block := fun _ ty => blocks ty;
     measured_ms := fun _ ty =>
       match ty with
       | DOCUMENTS => 12%Z
       | DATABASE => 7%Z
       | WEB_SEARCH => 30%Z
       end;
     ollama_post := fun _ _ _ => inr (200%Z, Some text);
     ollama_model := py "qwen2:0.5b";
     elapsed_ms := 42 |}.

(** The database search raises [e] inside its [try] block; the other two
    find evidence. *)
Definition database_fails (e : PyException) (ty : DataSource)
    : try_outcome :=
  match ty with
  | DOCUMENTS => Ends (inr [doc_item])
  | DATABASE => Ends (inl e)
  | WEB_SEARCH => Ends (inr [web_item])
  end.

(** *** Failure isolation *)

(** A search task whose [try] block ends returns a result, whatever the
    block did. *)
Lemma search_task_ends request b i ty body :
  search_block b i ty = Ends body ->
  (ty = WEB_SEARCH -> enable_web_search request = true) ->
  search_task request b i ty
  = Returned (task_result ty body (measured_ms b i ty)).
Proof.
  intros Hb Hweb. unfold search_task. rewrite Hb.
  destruct ty; [reflexivity|reflexivity|].
  rewrite (Hweb eq_refl). unfold awaited, _search_web.
  rewrite (Hweb eq_refl). reflexivity.
Qed.

(** The results of search tasks whose [try] blocks all end. *)
Definition result_of (b : Backends) (i : nat) (ty : DataSource)
    : SourceSearchResult :=
  match search_block b i ty with
  | Ends body => task_result ty body (measured_ms b i ty)
  | Interrupted e => failed_result ty e
  end.

Lemma service_entries {U : Unicode} request b :
  (WEB_SEARCH ∈ data_sources request -> enable_web_search request = true) ->
  (forall i ty, data_sources request !! i = Some ty ->
     exists body, search_block b i ty = Ends body) ->
  imap (entry_of (service_world request b)) (data_sources request)
  = Entry <$> imap (result_of b) (data_sources request).
Proof.
  intros Hweb Hends. rewrite fmap_imap. apply imap_ext.
  intros i ty Hi. destruct (Hends i ty Hi) as [body Hb].
  unfold entry_of, result_of, compose. cbn [run_task service_world].
  rewrite (search_task_ends request b i ty body Hb), Hb; [reflexivity|].
  intros ->. apply Hweb. by apply list_elem_of_lookup_2 in Hi.
Qed.

(** The answer generation of the service does not raise. *)
Lemma service_query_returns {U : Unicode} request b found :
  imap (entry_of (service_world request b)) (data_sources request)
  = Entry <$> found ->
  exists outcome,
    query (service_world request b) request = inr outcome /\
    match outcome with
    | Combined response => combine_results request = true
    | Individual response =>
      combine_results request = false /\ source_results response = found
    end.
Proof.
  intros Hfound. rewrite query_cases, Hfound, read_all_entries.
  destruct (combine_results request); cbn [generate_response service_world ret];
    eexists; (split; [reflexivity|]); cbn; auto.
Qed.

(** C3 (as stated) fails: documents, database and web search are requested
    and the database search raises inside its [try] block, 7 milliseconds
    after its start.  Its entry is failed and without evidence, but its
    search time is the 7 measured, not 0; and when the exception has no
    description (as [asyncio.TimeoutError()]) the error message is the empty
    string. *)
Lemma failed_entry_keeps_measured_time :
  let request := sample_request [DOCUMENTS; DATABASE; WEB_SEARCH] true false in
  let search e :=
    _execute_multi_source_search
      (service_world request (sample_backends (database_fails e) grounded_text))
      request in
  (exists r0 r1 r2,
     search {| exc_str := py "database is locked" |}
       = inr [Entry r0; Entry r1; Entry r2] /\
     status r0 = "success" /\ status r2 = "success" /\
     status r1 = "failed" /\ results r1 = [] /\
     error_message r1 = Some (py "database is locked") /\
     search_time_ms r1 = 7%Z /\ search_time_ms r1 ≠ 0%Z) /\
  (exists r0 r1 r2,
     search {| exc_str := [] |} = inr [Entry r0; Entry r1; Entry r2] /\
     status r0 = "success" /\ status r2 = "success" /\
     status r1 = "failed" /\ results r1 = [] /\
     search_time_ms r1 = 7%Z /\ error_message r1 = Some []).
Proof.
  vm_compute. split; do 3 eexists; repeat split; try reflexivity.
  discriminate.
Qed.

(** C3 (amended): when the search of exactly one requested source raises an
    Exception and the searches of the others end with their evidence (a
    requested web search being enabled), the search phase returns one entry
    per requested source in request order; the entry of the failing source
    has status failed, str(exception) as error message, no evidence, and as
    search time the milliseconds its task measured; the other entries have
    status success, with the evidence found; and the query does not raise:
    it returns these entries when results are not combined, and a combined
    response when they are. *)
Theorem one_failing_task_is_isolated {U : Unicode}
    (b : Backends) (request : MultiSourceQueryRequest)
    (i : nat) (ty : DataSource) (e : PyException) :
  data_sources request !! i = Some ty ->
  (WEB_SEARCH ∈ data_sources request -> enable_web_search request = true) ->
  search_block b i ty = Ends (inl e) ->
  (forall j ty', j ≠ i -> data_sources request !! j = Some ty' ->
     exists items, search_block b j ty' = Ends (inr items)) ->
  exists found,
    _execute_multi_source_search (service_world request b) request
      = inr (Entry <$> found) /\
    length found = length (data_sources request) /\
    found !! i =
      Some {| result_source_type := ty; results := [];
              search_time_ms := measured_ms b i ty;
              total_found := 0; status := "failed";
              error_message := Some (exc_str e) |} /\
    (forall j ty', j ≠ i -> data_sources request !! j = Some ty' ->
       exists items,
         search_block b j ty' = Ends (inr items) /\
         found !! j =
           Some {| result_source_type := ty'; results := items;
                   search_time_ms := measured_ms b j ty';
                   total_found := length items; status := "success";
                   error_message := None |}) /\
    exists outcome,
      query (service_world request b) request = inr outcome /\
      match outcome with
      | Combined response => combine_results request = true
      | Individual response =>
        combine_results request = false /\ source_results response = found
      end.
Proof.
  intros Hi Hweb He Hothers.
  assert (Hends : forall j ty', data_sources request !! j = Some ty' ->
            exists body, search_block b j ty' = Ends body).
  { intros j ty' Hj. destruct (decide (j = i)) as [->|Hne].
    - rewrite Hi in Hj. injection Hj as <-. eauto.
    - destruct (Hothers j ty' Hne Hj) as [items ?]. eauto. }
  pose proof (service_entries request b Hweb Hends) as Hfound.
  exists (imap (result_of b) (data_sources request)).
  split; [by rewrite execute_search_entries, Hfound|].
  split; [apply length_imap|].
  split.
  { rewrite list_lookup_imap, Hi. cbn [fmap option_fmap option_map].
    unfold result_of. by rewrite He. }
  split.
  { intros j ty' Hne Hj. destruct (Hothers j ty' Hne Hj) as [items Hb].
    exists items. split; [done|].
    rewrite list_lookup_imap, Hj. cbn [fmap option_fmap option_map].
    unfold result_of. by rewrite Hb. }
  by apply service_query_returns.
Qed.

(** A run in which the database search times out. *)
Definition timeout_backends : Backends :=
  sample_backends (database_fails {| exc_str := [] |}) grounded_text.
Definition timeout_request : MultiSourceQueryRequest :=
  sample_request [DOCUMENTS; DATABASE; WEB_SEARCH] true false.

Lemma one_failing_task_is_isolated_witness :
  data_sources timeout_request !! 1 = Some DATABASE /\
  (WEB_SEARCH ∈ data_sources timeout_request ->
     enable_web_search timeout_request = true) /\
  search_block timeout_backends 1 DATABASE = Ends (inl {| exc_str := [] |}) /\
  (forall j ty', j ≠ 1 -> data_sources timeout_request !! j = Some ty' ->
     exists items, search_block timeout_backends j ty' = Ends (inr items)) /\
  exists found,
    _execute_multi_source_search
      (service_world timeout_request timeout_backends) timeout_request
      = inr (Entry <$> found) /\
    length found = length (data_sources timeout_request) /\
    found !! 1 =
      Some {| result_source_type := DATABASE; results := [];
              search_time_ms := measured_ms timeout_backends 1 DATABASE;
              total_found := 0; status := "failed";
              error_message := Some (exc_str {| exc_str := [] |}) |} /\
    (forall j ty', j ≠ 1 -> data_sources timeout_request !! j = Some ty' ->
       exists items,
         search_block timeout_backends j ty' = Ends (inr items) /\
         found !! j =
           Some {| result_source_type := ty'; results := items;
                   search_time_ms := measured_ms timeout_backends j ty';
                   total_found := length items; status := "success";
                   error_message := None |}) /\
    exists outcome,
      query (service_world timeout_request timeout_backends) timeout_request
        = inr outcome /\
      match outcome with
      | Combined response => combine_results timeout_request = true
      | Individual response =>
        combine_results timeout_request = false /\
        source_results response = found
      end.
Proof.
  assert (Hothers :
    forall j ty', j ≠ 1 -> data_sources timeout_request !! j = Some ty' ->
      exists items, search_block timeout_backends j ty' = Ends (inr items)).
  { intros [|[|[|j]]] ty' Hj Hty'; simplify_eq/=; eexists; reflexivity. }
  split; [reflexivity|]. split; [reflexivity|]. split; [reflexivity|].
  split; [exact Hothers|].
  apply (one_failing_task_is_isolated timeout_backends timeout_request
           1 DATABASE {| exc_str := [] |}).
  - reflexivity.
  - reflexivity.
  - reflexivity.
  - exact Hothers.
Defined.

(** *** Ranking of the combined sources *)

(** What pydantic guarantees of every evidence item a task returns. *)
Definition world_scores_in_range (w : World) : Prop :=
  forall i ty r, run_task w i ty = Returned r ->
    Forall (fun x => score_in_range (relevance_score x) = true) (results r).

Lemma score_in_range_bounds x :
  score_in_range x = true ->
  (0.0 <=? x)%float = true /\ (x <=? 1.0)%float = true.
Proof. unfold score_in_range. by intros ?%andb_true_iff. Qed.

Lemma score_in_range_number x : score_in_range x = true -> is_number x.
Proof.
  intros [H _]%score_in_range_bounds. by apply (leb_is_number_r 0.0%float).
Qed.

Lemma entry_success_returned w i ty sr :
  entry_of w i ty = Entry sr -> status sr = "success" ->
  run_task w i ty = Returned sr.
Proof.
  unfold entry_of. destruct (run_task w i ty); intros [= <-]; [discriminate|done].
Qed.

Lemma evidence_scores_in_range w ds found :
  world_scores_in_range w ->
  imap (entry_of w) ds = Entry <$> found ->
  Forall (fun x => score_in_range (relevance_score x) = true)
    (evidence found).
Proof.
  intros Hw Hfound. apply Forall_forall. intros x Hx.
  apply evidence_from_success in Hx as (sr & Hsr & Hs & Hx).
  apply (elem_of_imap_entry w ds found sr Hfound) in Hsr as (i & ty & _ & He).
  pose proof (entry_success_returned w i ty sr He Hs) as Hr.
  pose proof (Hw i ty _ Hr) as Hall.
  rewrite Forall_forall in Hall. by apply Hall.
Qed.

Section Ranking.
Context {U : Unicode}.

Lemma query_combined_inv w request response :
  query w request = inr (Combined response) ->
  exists found text,
    imap (entry_of w) (data_sources request) = Entry <$> found /\
    generate_response w (question request) (user_role request)
      (take 10 (sort_desc relevance_score (evidence found)))
    = inr text /\
    response =
      with_query_time (query_elapsed_ms w)
        (combined_response w request found text).
Proof.
  rewrite query_cases.
  destruct (read_all _) as [e|found] eqn:E; [discriminate|].
  apply read_all_inv in E.
  destruct (combine_results request); [|discriminate].
  destruct (generate_response _ _ _ _) as [e|text] eqn:G; [discriminate|].
  intros [= <-]. eauto.
Qed.

Lemma top_sources_descending w ds found :
  world_scores_in_range w ->
  imap (entry_of w) ds = Entry <$> found ->
  descending relevance_score
    (take 10 (sort_desc relevance_score (evidence found))).
Proof.
  intros Hw Hfound. apply descending_take, sort_desc_descending.
  eapply Forall_impl; [by eapply evidence_scores_in_range|].
  intros x. apply score_in_range_number.
Qed.

Lemma top_sources_from_evidence (l : list MultiSourceInfo) x :
  x ∈ take 10 (sort_desc relevance_score l) -> x ∈ l.
Proof.
  intros Hx%subseteq_take. by rewrite sort_desc_perm in Hx.
Qed.

End Ranking.

(** C4: the sources of a combined response are in descending order of
    relevance score, come from the evidence of the successful results only,
    and are at most ten. *)
Theorem combined_sources_ranked {U : Unicode}
    (w : World) (request : MultiSourceQueryRequest)
    (response : MultiSourceQueryResponse) :
  world_scores_in_range w ->
  query w request = inr (Combined response) ->
  exists found,
    _execute_multi_source_search w request = inr (Entry <$> found) /\
    descending relevance_score (sources response) /\
    (forall x, x ∈ sources response ->
       exists sr, sr ∈ found /\ status sr = "success" /\ x ∈ results sr) /\
    length (sources response) <= 10 /\
    sources response = take 10 (sort_desc relevance_score (evidence found)).
Proof.
  intros Hw (found & text & Hfound & _ & ->)%query_combined_inv.
  exists found.
  split; [by rewrite execute_search_entries, Hfound|].
  cbn [with_query_time combined_response sources].
  split; [by eapply top_sources_descending|].
  split; [|split; [|reflexivity]].
  - intros x Hx%top_sources_from_evidence. by apply evidence_from_success.
  - rewrite length_take. lia.
Qed.

Lemma all_succeed_scores_in_range text :
  world_scores_in_range (sample_world all_succeed text).
Proof.
  intros i [] r [= <-]; vm_compute; repeat constructor.
Defined.

(** A run with three successful sources. *)
Definition ranked_world : World := sample_world all_succeed grounded_text.
Definition ranked_request : MultiSourceQueryRequest :=
  sample_request [DOCUMENTS; DATABASE; WEB_SEARCH] true true.
Definition ranked_found : list SourceSearchResult :=
  [_search_documents (inr [doc_item]) 12;
   _search_database (inr [db_item]) 7;
   _search_web ranked_request (inr [web_item]) 30].
Definition ranked_response : MultiSourceQueryResponse :=
  with_query_time 42
    (combined_response ranked_world ranked_request ranked_found
       grounded_text).

Lemma combined_sources_ranked_witness :
  world_scores_in_range ranked_world /\
  query ranked_world ranked_request = inr (Combined ranked_response) /\
  sources ranked_response = [doc_item; db_item; web_item] /\
  exists found,
    _execute_multi_source_search ranked_world ranked_request
      = inr (Entry <$> found) /\
    descending relevance_score (sources ranked_response) /\
    (forall x, x ∈ sources ranked_response ->
       exists sr, sr ∈ found /\ status sr = "success" /\ x ∈ results sr) /\
    length (sources ranked_response) <= 10 /\
    sources ranked_response
      = take 10 (sort_desc relevance_score (evidence found)).
Proof.
  split; [apply all_succeed_scores_in_range|].
  split; [vm_compute; reflexivity|].
  split; [vm_compute; reflexivity|].
  apply (combined_sources_ranked ranked_world ranked_request ranked_response).
  - apply all_succeed_scores_in_range.
  - vm_compute; reflexivity.
Defined.

(** *** Per-type counts *)

(** C7 (as stated) fails: documents, database and web search are requested;
    the database search fails and the web search is disabled; the response
    reports a count for documents only, and no zero for the other two. *)
Lemma failed_sources_are_not_counted :
  let w := sample_world only_documents_succeed grounded_text in
  let request := sample_request [DOCUMENTS; DATABASE; WEB_SEARCH] false true in
  exists r0 r1 r2 response,
    _execute_multi_source_search w request
      = inr [Entry r0; Entry r1; Entry r2] /\
    status r0 = "success" /\ status r1 = "failed" /\ status r2 = "disabled" /\
    query w request = inr (Combined response) /\
    sources response = [doc_item] /\
    sources_by_type response !! DOCUMENTS = Some 1 /\
    sources_by_type response !! DATABASE = None /\
    sources_by_type response !! WEB_SEARCH = None.
Proof. vm_compute. do 4 eexists. repeat split; reflexivity. Qed.

(** C7 (amended): only status=success results contribute evidence to the
    fusion, and the per-type counts have an entry exactly for the source
    types with a successful result (the length of its evidence, the last
    such result counting); a source type whose results are all failed or
    disabled has no entry. *)
Theorem counts_cover_successful_sources_only {U : Unicode}
    (w : World) (request : MultiSourceQueryRequest)
    (found : list SourceSearchResult) (response : MultiSourceQueryResponse) :
  _execute_multi_source_search w request = inr (Entry <$> found) ->
  query w request = inr (Combined response) ->
  (forall x, x ∈ sources response ->
     exists sr, sr ∈ found /\ status sr = "success" /\ x ∈ results sr) /\
  total_sources_searched response = length (evidence found) /\
  (forall ty, sources_by_type response !! ty = reported_count ty found) /\
  (forall ty,
     (forall sr, sr ∈ found -> result_source_type sr = ty ->
        status sr ≠ "success") ->
     sources_by_type response !! ty = None).
Proof.
  rewrite execute_search_entries. intros [= Hsearch].
  intros (found' & text & Hfound & _ & ->)%query_combined_inv.
  rewrite Hsearch in Hfound. apply entries_inj in Hfound as <-.
  cbn [with_query_time combined_response sources sources_by_type
       total_sources_searched].
  assert (Hcount : forall ty,
    (fold_left combine_step found ([], ∅)).2 !! ty
    = reported_count ty found).
  { intros ty. rewrite fold_combine_step_counts.
    destruct (reported_count _ _); [done|apply lookup_empty]. }
  split.
  { intros x Hx%top_sources_from_evidence. by apply evidence_from_success. }
  split; [reflexivity|]. split; [exact Hcount|].
  intros ty Hnone. rewrite Hcount. unfold reported_count.
  destruct (last _) as [sr|] eqn:El; [|reflexivity].
  apply last_Some_elem_of in El.
  apply list_elem_of_filter in El as [Hty El].
  apply list_elem_of_filter in El as [Hs El].
  apply String.eqb_eq in Hs. by destruct (Hnone sr El Hty).
Qed.

(** A run in which only the document search succeeds. *)
Definition degraded_world : World :=
  sample_world only_documents_succeed grounded_text.
Definition degraded_request : MultiSourceQueryRequest :=
  sample_request [DOCUMENTS; DATABASE; WEB_SEARCH] false true.
Definition degraded_found : list SourceSearchResult :=
  [_search_documents (inr [doc_item]) 12;
   _search_database (inl {| exc_str := py "database is locked" |}) 7;
   _search_web degraded_request (inr [web_item]) 30].
Definition degraded_response : MultiSourceQueryResponse :=
  with_query_time 42
    (combined_response degraded_world degraded_request degraded_found
       grounded_text).

Lemma counts_cover_successful_sources_only_witness :
  _execute_multi_source_search degraded_world degraded_request
    = inr (Entry <$> degraded_found) /\
  query degraded_world degraded_request = inr (Combined degraded_response) /\
  (forall x, x ∈ sources degraded_response ->
     exists sr, sr ∈ degraded_found /\ status sr = "success" /\
                x ∈ results sr) /\
  total_sources_searched degraded_response = length (evidence degraded_found) /\
  (forall ty,
     sources_by_type degraded_response !! ty = reported_count ty degraded_found) /\
  (forall ty,
     (forall sr, sr ∈ degraded_found -> result_source_type sr = ty ->
        status sr ≠ "success") ->
     sources_by_type degraded_response !! ty = None).
Proof.
  split; [vm_compute; reflexivity|].
  split; [vm_compute; reflexivity|].
  apply (counts_cover_successful_sources_only
           degraded_world degraded_request degraded_found degraded_response);
    vm_compute; reflexivity.
Defined.

(** *** The strategy label *)

(** The heuristic of [_determine_search_strategy]. *)
Lemma determine_search_strategy_heuristic (request : MultiSourceQueryRequest) :
  _determine_search_strategy request =
    if decide (length (data_sources request) = 1) then "fast"
    else if decide (WEB_SEARCH ∈ data_sources request) then "comprehensive"
    else if decide (top_k_per_source request <= 3)%Z then "fast"
    else "balanced".
Proof.
  unfold _determine_search_strategy.
  destruct (decide (length _ = 1)) as [->|Hn]; [reflexivity|].
  apply Nat.eqb_neq in Hn. rewrite Hn.
  destruct (decide (WEB_SEARCH ∈ _)).
  - by rewrite bool_decide_eq_true_2.
  - rewrite bool_decide_eq_false_2 by done.
    destruct (decide (_ <= 3)%Z) as [Hk|Hk].
    + apply Z.leb_le in Hk. by rewrite Hk.
    + apply Z.leb_nle in Hk. by rewrite Hk.
Qed.

(** The label of a combined response does not depend on the request. *)
Lemma reported_strategy_is_balanced {U : Unicode} w request response :
  query w request = inr (Combined response) ->
  search_strategy response = "balanced".
Proof. by intros (found & text & _ & _ & ->)%query_combined_inv. Qed.

(** C8: the code departs from the claim.  A single requested source makes
    the heuristic answer "fast" (and web search among several would make it
    "comprehensive"), but the response carries the constant "balanced". *)
Lemma reported_strategy_ignores_heuristic :
  let w := sample_world all_succeed grounded_text in
  let single := sample_request [DOCUMENTS] false true in
  let with_web := sample_request [DOCUMENTS; WEB_SEARCH] true true in
  _determine_search_strategy single = "fast" /\
  _determine_search_strategy with_web = "comprehensive" /\
  exists r1 r2,
    query w single = inr (Combined r1) /\ search_strategy r1 = "balanced" /\
    query w with_web = inr (Combined r2) /\ search_strategy r2 = "balanced".
Proof. vm_compute. repeat split. do 2 eexists. repeat split; reflexivity. Qed.

(** *** The confidence of a combined response *)

(** The confidence after the penalties that apply. *)
Definition penalised (high_risk inconsistent : bool) : float :=
  let c := if high_risk then (0.8 * 0.5)%float else 0.8%float in
  if inconsistent then (c * 0.7)%float else c.

(** C10 (as stated) fails: an answer that shares no word with its sources
    gets 0.8 * 0.7, which in binary64 is 0.5599999999999999 and equals none
    of 0.8, 0.56, 0.4 and 0.28. *)
Lemma penalised_confidence_is_rounded :
  let w := sample_world all_succeed ungrounded_text in
  let request := sample_request [DOCUMENTS] false true in
  exists response,
    query w request = inr (Combined response) /\
    confidence response = (0.8 * 0.7)%float /\
    confidence response = 0.5599999999999999%float /\
    (confidence response =? 0.8)%float = false /\
    (confidence response =? 0.56)%float = false /\
    (confidence response =? 0.4)%float = false /\
    (confidence response =? 0.28)%float = false.
Proof. vm_compute. eexists. repeat split; reflexivity. Qed.

(** C10 (amended): the raw confidence given to the validation is the
    constant 0.8 whatever the request, so the confidence of a combined
    response is one of the four binary64 numbers 0.8, 0.8 * 0.7
    (0.5599999999999999), 0.8 * 0.5 (0.4) and 0.8 * 0.5 * 0.7
    (0.27999999999999997), by the penalties that apply. *)
Theorem combined_confidence_values {U : Unicode}
    (w : World) (request : MultiSourceQueryRequest)
    (response : MultiSourceQueryResponse) :
  query w request = inr (Combined response) ->
  let v := validate_answer (question request) (answer response)
             (map (fun source => Some (content source)) (sources response))
             0.8 in
  let d := validation_details v in
  confidence response = confidence_adjusted v /\
  confidence response =
    penalised (bool_decide (risk_level (hallucination d) = high))
              (negb (is_consistent (source_consistency d))) /\
  (confidence response = 0.8%float \/
   confidence response = 0.5599999999999999%float \/
   confidence response = 0.4%float \/
   confidence response = 0.27999999999999997%float).
Proof.
  intros (found & text & _ & _ & ->)%query_combined_inv.
  cbn [with_query_time combined_response sources confidence answer].
  cbn zeta. split; [reflexivity|].
  unfold validate_answer.
  cbn [validation_details hallucination source_consistency confidence_adjusted].
  unfold penalised.
  destruct (bool_decide _), (is_consistent _); simpl; split; auto.
Qed.

(** A run whose answer shares no word with its source. *)
Definition ungrounded_world : World := sample_world all_succeed ungrounded_text.
Definition ungrounded_request : MultiSourceQueryRequest :=
  sample_request [DOCUMENTS] false true.
Definition ungrounded_response : MultiSourceQueryResponse :=
  with_query_time 42
    (combined_response ungrounded_world ungrounded_request
       [_search_documents (inr [doc_item]) 12] ungrounded_text).

Lemma combined_confidence_values_witness :
  query ungrounded_world ungrounded_request
    = inr (Combined ungrounded_response) /\
  let v := validate_answer (question ungrounded_request)
             (answer ungrounded_response)
             (map (fun source => Some (content source))
                (sources ungrounded_response)) 0.8 in
  let d := validation_details v in
  confidence ungrounded_response = confidence_adjusted v /\
  confidence ungrounded_response =
    penalised (bool_decide (risk_level (hallucination d) = high))
              (negb (is_consistent (source_consistency d))) /\
  (confidence ungrounded_response = 0.8%float \/
   confidence ungrounded_response = 0.5599999999999999%float \/
   confidence ungrounded_response = 0.4%float \/
   confidence ungrounded_response = 0.27999999999999997%float).
Proof.
  split; [vm_compute; reflexivity|].
  apply (combined_confidence_values
           ungrounded_world ungrounded_request ungrounded_response).
  vm_compute; reflexivity.
Defined.

(** *** Weights and threshold of the advanced endpoint *)

(** [SourceWeight]: each field is [Field(..., ge=0.0, le=1.0)]. *)
Definition weights_in_range (weights : SourceWeight) : Prop :=
  score_in_range (documents weights) = true /\
  score_in_range (database weights) = true /\
  score_in_range (web_search weights) = true.

(** [x] is [x0] with its score multiplied by the weight that the request
    gives to the source of [x0], and nothing else changed. *)
Definition rescaled_by (weights : SourceWeight) (x0 x : MultiSourceInfo)
    : Prop :=
  relevance_score x =
    (relevance_score x0 *
     match source_type x0 with
     | DOCUMENTS => documents weights
     | DATABASE => database weights
     | WEB_SEARCH => web_search weights
     end)%float /\
  source_type x = source_type x0 /\
  source_id x = source_id x0 /\
  content x = content x0 /\
  metadata x = metadata x0 /\
  document_name x = document_name x0 /\
  page_number x = page_number x0 /\
  section x = section x0 /\
  url x = url x0 /\
  web_source x = web_source x0.

Lemma reweigh_rescaled weights x0 : rescaled_by weights x0 (reweigh weights x0).
Proof.
  unfold rescaled_by, reweigh, weight_map. cbn. repeat split.
Qed.

Lemma weight_map_in_range weights ty :
  weights_in_range weights -> score_in_range (weight_map weights ty) = true.
Proof. intros (? & ? & ?). by destruct ty. Qed.

Lemma reweighed_not_negative weights x0 :
  weights_in_range weights ->
  score_in_range (relevance_score x0) = true ->
  not_negative (relevance_score (reweigh weights x0)).
Proof.
  intros Hw [Hx _]%score_in_range_bounds. simpl.
  apply not_negative_mul; apply not_negative_of_leb; [done|].
  by apply (score_in_range_bounds _ (weight_map_in_range weights _ Hw)).
Qed.

(** [x0] with its score multiplied by the weight of its source. *)
Definition rescale (weights : SourceWeight) (x0 : MultiSourceInfo)
    : MultiSourceInfo :=
  {| source_type := source_type x0;
     source_id := source_id x0;
     content := content x0;
     relevance_score :=
       (relevance_score x0 *
        match source_type x0 with
        | DOCUMENTS => documents weights
        | DATABASE => database weights
        | WEB_SEARCH => web_search weights
        end)%float;
     metadata := metadata x0;
     document_name := document_name x0;
     page_number := page_number x0;
     section := section x0;
     url := url x0;
     web_source := web_source x0 |}.

Lemma reweigh_rescale weights x0 : reweigh weights x0 = rescale weights x0.
Proof. reflexivity. Qed.

(** The sources the endpoint returns, from those of the response of
    [query]: rescaled, put in descending order of the new scores, and then
    filtered by the threshold when that is positive. *)
Definition adjusted_sources (threshold : float) (weights : SourceWeight)
    (l : list MultiSourceInfo) : list MultiSourceInfo :=
  let weighted := sort_desc relevance_score (map (rescale weights) l) in
  if (0.0 <? threshold)%float
  then filter (fun x => (threshold <=? relevance_score x)%float = true) weighted
  else weighted.

Section Advanced.
Context {U : Unicode}.

Lemma advanced_query_inv w request response :
  advanced_multi_source_query w request = inr response ->
  exists base,
    query w (basic_request_of request) = inr (Combined base) /\
    response = adjust_response request base.
Proof.
  unfold advanced_multi_source_query.
  destruct (bool_decide _); [discriminate|].
  destruct (query w (basic_request_of request)) as [e|[base|other]];
    [discriminate| |discriminate].
  intros [= <-]. eauto.
Qed.

Lemma adjust_response_sources request weights base :
  source_weights request = Some weights ->
  sources (adjust_response request base) =
  adjusted_sources (min_relevance_threshold request) weights (sources base).
Proof.
  intros Hw. unfold adjust_response, adjusted_sources. rewrite Hw.
  unfold _apply_source_weights.
  rewrite (map_ext _ _ (reweigh_rescale weights)).
  destruct (_ <? _)%float; reflexivity.
Qed.

Lemma adjusted_sources_elem threshold weights l x :
  x ∈ adjusted_sources threshold weights l ->
  exists x0, x0 ∈ l /\ x = reweigh weights x0.
Proof.
  unfold adjusted_sources. intros Hx.
  assert (Hin : x ∈ sort_desc relevance_score (map (rescale weights) l)).
  { destruct (_ <? _)%float; [|done].
    by apply list_elem_of_filter in Hx as [_ ?]. }
  rewrite sort_desc_perm in Hin.
  change (map (rescale weights) l) with (rescale weights <$> l) in Hin.
  apply list_elem_of_fmap in Hin as (x0 & -> & Hx0).
  exists x0. split; [done|]. symmetry. apply reweigh_rescale.
Qed.

End Advanced.

(** C5: with per-source weights and a minimum relevance threshold t, every
    returned item is an item of the combined response with its score
    multiplied by the weight the request gives to its source (documents,
    database or web search) and nothing else changed; no returned item has
    a weighted score below t, and no item whose weighted score reaches t is
    dropped: the threshold is applied after the weights. *)
Theorem weights_then_threshold {U : Unicode}
    (w : World) (request : AdvancedMultiSourceRequest)
    (weights : SourceWeight) (response : MultiSourceQueryResponse) :
  world_scores_in_range w ->
  source_weights request = Some weights ->
  weights_in_range weights ->
  score_in_range (min_relevance_threshold request) = true ->
  advanced_multi_source_query w request = inr response ->
  exists base,
    query w (basic_request_of request) = inr (Combined base) /\
    sources response =
      adjusted_sources (min_relevance_threshold request) weights
        (sources base) /\
    (forall x, x ∈ sources response ->
       (exists x0, x0 ∈ sources base /\ rescaled_by weights x0 x) /\
       (relevance_score x <? min_relevance_threshold request)%float = false) /\
    (forall x0, x0 ∈ sources base ->
       (min_relevance_threshold request <=?
          relevance_score x0 *
          match source_type x0 with
          | DOCUMENTS => documents weights
          | DATABASE => database weights
          | WEB_SEARCH => web_search weights
          end)%float = true ->
       exists x, x ∈ sources response /\ rescaled_by weights x0 x).
Proof.
  intros Hworld Hweights Hrange Ht (base & Hq & ->)%advanced_query_inv.
  exists base. split; [done|].
  rewrite (adjust_response_sources _ _ _ Hweights). split; [done|].
  pose proof Hq as Hq'.
  apply query_combined_inv in Hq' as (found & text & Hfound & _ & Hbase).
  pose proof (evidence_scores_in_range w
                (data_sources (basic_request_of request)) found
                Hworld Hfound) as Hall.
  rewrite Forall_forall in Hall.
  assert (Hbase_range : forall x0, x0 ∈ sources base ->
            score_in_range (relevance_score x0) = true).
  { intros x0 Hx0. rewrite Hbase in Hx0.
    cbn [with_query_time combined_response sources] in Hx0.
    apply top_sources_from_evidence in Hx0. by apply Hall. }
  split.
  - intros x Hx. split.
    { apply adjusted_sources_elem in Hx as (x0 & Hx0 & ->).
      exists x0. split; [done|apply reweigh_rescaled]. }
    unfold adjusted_sources in Hx.
    destruct (0.0 <? min_relevance_threshold request)%float eqn:Epos.
    + apply list_elem_of_filter in Hx as [Hge _]. by apply leb_not_ltb.
    + rewrite sort_desc_perm in Hx.
      change (map (rescale weights) (sources base))
        with (rescale weights <$> sources base) in Hx.
      apply list_elem_of_fmap in Hx as (x0 & -> & Hx0).
      rewrite <- reweigh_rescale.
      apply not_negative_ltb; [|done|].
      * apply reweighed_not_negative; [done|by apply Hbase_range].
      * by apply score_in_range_bounds.
  - intros x0 Hx0 Hge. exists (rescale weights x0).
    split; [|rewrite <- reweigh_rescale; apply reweigh_rescaled].
    assert (Hin : rescale weights x0
                    ∈ sort_desc relevance_score
                        (map (rescale weights) (sources base))).
    { rewrite sort_desc_perm.
      change (map (rescale weights) (sources base))
        with (rescale weights <$> sources base).
      by apply list_elem_of_fmap_2. }
    unfold adjusted_sources.
    destruct (0.0 <? min_relevance_threshold request)%float; [|done].
    apply list_elem_of_filter. split; [exact Hge|exact Hin].
Qed.

Definition sample_weights : SourceWeight :=
  {| documents := 0.6; database := 0.3; web_search := 0.1 |}.

Definition sample_advanced_request : AdvancedMultiSourceRequest :=
  {| adv_question := py "DDR5 voltage?"; adv_user_role := ENGINEER;
     adv_data_sources := [DOCUMENTS; DATABASE; WEB_SEARCH];
     source_weights := Some sample_weights;
     adv_top_k_per_source := 3; min_relevance_threshold := 0.1;
     adv_enable_web_search := true;
     web_search_engine := Some (py "duckduckgo");
     manufacturing_focus := true; adv_document_filter := None |}.

Definition weighted_response : MultiSourceQueryResponse :=
  adjust_response sample_advanced_request ranked_response.

(** The document item (0.9) is weighted by 0.6, the database item (0.6) by
    0.3 and the web item (0.5) by 0.1; with threshold 0.1 the web item,
    now at 0.05, is dropped. *)
Lemma weights_then_threshold_witness :
  world_scores_in_range ranked_world /\
  source_weights sample_advanced_request = Some sample_weights /\
  weights_in_range sample_weights /\
  score_in_range (min_relevance_threshold sample_advanced_request) = true /\
  advanced_multi_source_query ranked_world sample_advanced_request
    = inr weighted_response /\
  sources ranked_response = [doc_item; db_item; web_item] /\
  map source_type (sources weighted_response) = [DOCUMENTS; DATABASE] /\
  map relevance_score (sources weighted_response)
    = [(0.9 * 0.6)%float; (0.6 * 0.3)%float] /\
  map relevance_score (sources weighted_response)
    = [0.54%float; 0.18%float] /\
  (0.5 * 0.1)%float = 0.05%float /\
  exists base,
    query ranked_world (basic_request_of sample_advanced_request)
      = inr (Combined base) /\
    sources weighted_response =
      adjusted_sources (min_relevance_threshold sample_advanced_request)
        sample_weights (sources base) /\
    (forall x, x ∈ sources weighted_response ->
       (exists x0, x0 ∈ sources base /\ rescaled_by sample_weights x0 x) /\
       (relevance_score x <? min_relevance_threshold sample_advanced_request)%float
         = false) /\
    (forall x0, x0 ∈ sources base ->
       (min_relevance_threshold sample_advanced_request <=?
          relevance_score x0 *
          match source_type x0 with
          | DOCUMENTS => documents sample_weights
          | DATABASE => database sample_weights
          | WEB_SEARCH => web_search sample_weights
          end)%float = true ->
       exists x, x ∈ sources weighted_response /\
                 rescaled_by sample_weights x0 x).
Proof.
  split; [apply all_succeed_scores_in_range|].
  split; [reflexivity|].
  split; [repeat split|].
  split; [reflexivity|].
  split; [vm_compute; reflexivity|].
  split; [vm_compute; reflexivity|].
  split; [vm_compute; reflexivity|].
  split; [vm_compute; reflexivity|].
  split; [vm_compute; reflexivity|].
  split; [vm_compute; reflexivity|].
  apply (weights_then_threshold ranked_world sample_advanced_request
           sample_weights weighted_response).
  - apply all_succeed_scores_in_range.
  - reflexivity.
  - repeat split.
  - reflexivity.
  - vm_compute; reflexivity.
Defined.

End MultiSourceProps.

(* --------------------------------------------------------------------- *)
(** ** The pattern matcher                                                *)
(* --------------------------------------------------------------------- *)

Module RegexProps.

Section Semantics.
Context {U : Unicode}.

(** What a pattern matches, as the documentation of [re] defines it. *)
Inductive matches : regex -> pystr -> Prop :=
| matches_eps : matches Eps []
| matches_chr p c : ci_eq p c = true -> matches (Chr p) [c]
| matches_dot c : c ≠ 10%N -> matches Dot [c]
| matches_cat r1 r2 s1 s2 :
    matches r1 s1 -> matches r2 s2 -> matches (Cat r1 r2) (s1 ++ s2)
| matches_alt_l r1 r2 s : matches r1 s -> matches (Alt r1 r2) s
| matches_alt_r r1 r2 s : matches r2 s -> matches (Alt r1 r2) s
| matches_star_nil r : matches (Star r) []
| matches_star_app r s1 s2 :
    matches r s1 -> matches (Star r) s2 -> matches (Star r) (s1 ++ s2).

Lemma matches_empty_inv s : ¬ matches Empty s.
Proof. inversion 1. Qed.

Lemma matches_eps_iff s : matches Eps s <-> s = [].
Proof. split; [by inversion 1|intros ->; constructor]. Qed.

Lemma matches_chr_iff p s :
  matches (Chr p) s <-> exists c, s = [c] /\ ci_eq p c = true.
Proof.
  split; [inversion 1; eauto|intros (c & -> & ?); by constructor].
Qed.

Lemma matches_dot_iff s : matches Dot s <-> exists c, s = [c] /\ c ≠ 10%N.
Proof.
  split; [inversion 1; eauto|intros (c & -> & ?); by constructor].
Qed.

Lemma matches_cat_iff r1 r2 s :
  matches (Cat r1 r2) s <->
  exists s1 s2, s = s1 ++ s2 /\ matches r1 s1 /\ matches r2 s2.
Proof.
  split; [inversion 1; eauto 6|intros (s1 & s2 & -> & ? & ?); by constructor].
Qed.

Lemma matches_alt_iff r1 r2 s :
  matches (Alt r1 r2) s <-> matches r1 s \/ matches r2 s.
Proof.
  split; [inversion 1; auto|intros [?|?]; [by apply matches_alt_l|by apply matches_alt_r]].
Qed.

Lemma matches_star_cons_iff r c s :
  matches (Star r) (c :: s) <->
  exists s1 s2, s = s1 ++ s2 /\ matches r (c :: s1) /\ matches (Star r) s2.
Proof.
  split.
  - intros H. remember (Star r) as r' eqn:Er. remember (c :: s) as t eqn:Et.
    revert s Et. induction H as [| | | | | | |r0 t1 t2 H1 _ H2 IH2];
      intros u Et; try discriminate.
    injection Er as ->. destruct t1 as [|c1 t1]; simpl in Et.
    + by apply IH2.
    + injection Et as -> <-. eauto.
  - intros (s1 & s2 & -> & H1 & H2).
    by apply (matches_star_app r (c :: s1) s2).
Qed.

Lemma nullable_matches r : nullable r = true <-> matches r [].
Proof.
  induction r as [| |p| |r1 IH1 r2 IH2|r1 IH1 r2 IH2|r]; simpl.
  - split; [done|by intros ?%matches_empty_inv].
  - split; [constructor|done].
  - split; [done|]. by intros (x & ? & _)%matches_chr_iff.
  - split; [done|]. by intros (x & ? & _)%matches_dot_iff.
  - rewrite andb_true_iff, IH1, IH2, matches_cat_iff. split.
    + intros [? ?]. by exists [], [].
    + intros (s1 & s2 & E & ? & ?). symmetry in E.
      apply app_eq_nil in E as [-> ->]. done.
  - by rewrite orb_true_iff, IH1, IH2, matches_alt_iff.
  - split; [constructor|done].
Qed.

Lemma alt_matches r1 r2 s : matches (alt r1 r2) s <-> matches (Alt r1 r2) s.
Proof.
  rewrite matches_alt_iff.
  destruct r1, r2; simpl; rewrite ?matches_alt_iff;
    split; auto; intros [H|H]; auto; by apply matches_empty_inv in H.
Qed.

Lemma cat_matches r1 r2 s : matches (cat r1 r2) s <-> matches (Cat r1 r2) s.
Proof.
  assert (He1 : forall r, ¬ matches (Cat Empty r) s).
  { intros r (? & ? & _ & ?%matches_empty_inv & _)%matches_cat_iff. done. }
  assert (He2 : forall r, ¬ matches (Cat r Empty) s).
  { intros r (? & ? & _ & _ & ?%matches_empty_inv)%matches_cat_iff. done. }
  assert (Heps : forall r, matches r s <-> matches (Cat Eps r) s).
  { intros r. rewrite matches_cat_iff. split.
    - intros ?. exists [], s. repeat split; [constructor|done].
    - by intros (? & ? & -> & ->%matches_eps_iff & ?). }
  destruct r1, r2; simpl; try done;
    try (split; [by intros ?%matches_empty_inv|]; intros H;
         first [by apply He1 in H | by apply He2 in H]);
    apply Heps.
Qed.

Lemma deriv_matches c r s : matches (deriv c r) s <-> matches r (c :: s).
Proof.
  revert s. induction r as [| |p| |r1 IH1 r2 IH2|r1 IH1 r2 IH2|r IH];
    intros s; simpl.
  - split; by intros ?%matches_empty_inv.
  - split; [by intros ?%matches_empty_inv|by intros ?%matches_eps_iff].
  - rewrite matches_chr_iff. destruct (ci_eq p c) eqn:E.
    + rewrite matches_eps_iff. split; [intros ->; eauto|].
      by intros (? & [= <- ->] & _).
    + split; [by intros ?%matches_empty_inv|].
      intros (? & [= <- ->] & ?). congruence.
  - rewrite matches_dot_iff. destruct (N.eqb_spec c 10).
    + split; [by intros ?%matches_empty_inv|].
      by intros (? & [= <- ->] & ?).
    + rewrite matches_eps_iff. split; [intros ->; eauto|].
      by intros (? & [= <- ->] & _).
  - rewrite alt_matches, matches_alt_iff, cat_matches, !matches_cat_iff.
    split.
    + intros [(s1 & s2 & -> & H1 & H2)|H].
      * exists (c :: s1), s2. rewrite <- IH1. done.
      * destruct (nullable r1) eqn:En; [|by apply matches_empty_inv in H].
        exists [], (c :: s). rewrite <- nullable_matches, <- IH2. done.
    + intros ([|c1 s1] & s2 & E & H1 & H2); simpl in E.
      * right. subst s2. apply nullable_matches in H1. rewrite H1.
        by apply IH2.
      * injection E as <- ->. left. exists s1, s2. by rewrite IH1.
  - rewrite alt_matches, !matches_alt_iff, IH1, IH2. done.
  - rewrite cat_matches, matches_cat_iff, matches_star_cons_iff.
    by setoid_rewrite IH.
Qed.

(** [match_here]: some prefix matches. *)
Lemma match_here_prefix r s :
  match_here r s = true <-> exists m post, s = m ++ post /\ matches r m.
Proof.
  revert r. induction s as [|c s IH]; intros r; simpl.
  - rewrite orb_false_r, nullable_matches. split.
    + intros ?. by exists [], [].
    + intros (m & post & E & ?). symmetry in E.
      by apply app_eq_nil in E as [-> ->].
  - rewrite orb_true_iff, nullable_matches, IH. split.
    + intros [?|(m & post & -> & ?%deriv_matches)].
      * by exists [], (c :: s).
      * by exists (c :: m), post.
    + intros ([|c1 m] & post & E & H); simpl in E; [by left|].
      injection E as <- ->. right. exists m, post. by rewrite deriv_matches.
Qed.

(** [re.search]: some substring matches. *)
Lemma search_from_substring r s :
  search_from r s = true <->
  exists pre m post, s = pre ++ m ++ post /\ matches r m.
Proof.
  induction s as [|c s IH]; cbn [search_from].
  - rewrite orb_false_r, match_here_prefix. split.
    + intros (m & post & ? & ?). by exists [], m, post.
    + intros (pre & m & post & E & ?). symmetry in E.
      apply app_eq_nil in E as [-> E]. eauto.
  - rewrite orb_true_iff, match_here_prefix, IH. split.
    + intros [(m & post & ? & ?)|(pre & m & post & -> & ?)].
      * by exists [], m, post.
      * by exists (c :: pre), m, post.
    + intros ([|c1 pre] & m & post & E & H); simpl in E; [left; eauto|].
      injection E as <- ->. right. eauto.
Qed.

(** *** The patterns of the service *)



(** Some substring of [s] matches the pattern [p]. *)
Definition occurs (p s : pystr) : Prop :=
  exists pre m post, s = pre ++ m ++ post /\ matches (re_compile p) m.







End Semantics.

(** X1: [re.search] finds a match exactly when some substring of the text
    matches the pattern. *)
Theorem re_search_substring_match {U : Unicode} (pattern s : pystr) :
  re_search pattern s = true <->
  exists pre m post, s = pre ++ m ++ post /\ matches (re_compile pattern) m.
Proof. apply search_from_substring. Qed.







End RegexProps.

(* --------------------------------------------------------------------- *)
(** ** More on the quality validation                                     *)
(* --------------------------------------------------------------------- *)

Module ValidationProps.
Import Quality FloatFacts QualityProps.
Local Open Scope string_scope.
Local Open Scope list_scope.

Section Basic.
Context {U : Unicode}.

Lemma basic_valid_iff_no_issues (answer : pystr) :
  basic_is_valid (_validate_basic_answer answer) = true
  <-> basic_issues (_validate_basic_answer answer) = [].
Proof.
  unfold _validate_basic_answer. cbn [basic_is_valid basic_issues].
  destruct (bool_decide (answer = []) || (length (strip answer) <? 5)%nat),
    (str_eqb (str_upper (strip answer)) (py "N/A")),
    (existsb (fun pattern => re_search pattern answer) boilerplate_patterns);
    cbn [negb andb app]; split; done.
Qed.

(** X4: The basic check is valid exactly when the three checks pass, reports
    one issue per failed check, and so has no issue exactly when it is
    valid. *)
Theorem basic_issues_by_check (answer : pystr) :
  let b := _validate_basic_answer answer in
  basic_is_valid b
    = check_length b && check_not_na b && check_not_boilerplate b /\
  (basic_is_valid b = true <-> basic_issues b = []) /\
  length (basic_issues b) =
    (if check_length b then 0 else 1) + (if check_not_na b then 0 else 1)
    + (if check_not_boilerplate b then 0 else 1).
Proof.
  cbn zeta. unfold _validate_basic_answer.
  cbn [basic_is_valid basic_issues check_length check_not_na
       check_not_boilerplate].
  destruct (bool_decide (answer = []) || (length (strip answer) <? 5)%nat),
    (str_eqb (str_upper (strip answer)) (py "N/A")),
    (existsb (fun pattern => re_search pattern answer) boilerplate_patterns);
    cbn [negb andb app length Nat.add]; repeat split; try done.
Qed.

(** X5: When upper-casing never shortens a string, an answer that fails the
    N/A check fails the length check too: "N/A" has three characters. *)
Theorem na_answer_is_too_short (answer : pystr) :
  (forall s, length s <= length (str_upper s)) ->
  check_not_na (_validate_basic_answer answer) = false ->
  check_length (_validate_basic_answer answer) = false.
Proof.
  intros Hupper. unfold _validate_basic_answer.
  cbn [check_not_na check_length]. unfold str_eqb.
  intros Hna%negb_false_iff%bool_decide_eq_true.
  apply negb_false_iff, orb_true_iff. right. apply Nat.ltb_lt.
  pose proof (Hupper (strip answer)) as Hlen. rewrite Hna in Hlen.
  assert (E : length (py "N/A") = 3) by (vm_compute; reflexivity).
  lia.
Qed.

End Basic.

Lemma na_answer_is_too_short_witness :
  (forall s, length s <= length (str_upper (Unicode := ascii_hangul) s)) /\
  check_not_na (_validate_basic_answer (U := ascii_hangul) (py " n/a "))
    = false /\
  check_length (_validate_basic_answer (U := ascii_hangul) (py " n/a "))
    = false.
Proof.
  assert (H : forall s,
            length s <= length (str_upper (Unicode := ascii_hangul) s)).
  { intros s. cbn. rewrite length_map. lia. }
  split; [exact H|]. split; [vm_compute; reflexivity|].
  apply (na_answer_is_too_short (U := ascii_hangul) (py " n/a ") H).
  vm_compute; reflexivity.
Defined.

Section Validation.
Context {U : Unicode}.

(** X6: Only the basic check decides validity: a high hallucination risk and a
    lack of consistency each add an issue, after those of the basic check,
    and leave [is_valid] as it is. *)
Theorem issues_of_validation
    (question answer : pystr) (sources : list source_dict)
    (confidence : float) :
  let r := validate_answer question answer sources confidence in
  let d := validation_details r in
  is_valid r = basic_is_valid (_validate_basic_answer answer) /\
  issues r =
    basic_issues (_validate_basic_answer answer)
    ++ (if bool_decide (risk_level (hallucination d) = high)
        then [py "높은 환각 위험 감지"] else [])
    ++ (if is_consistent (source_consistency d)
        then [] else [py "소스와의 일치성 부족"]).
Proof.
  cbn zeta. unfold validate_answer.
  cbn [is_valid issues validation_details hallucination source_consistency].
  split; [reflexivity|].
  pose proof (basic_valid_iff_no_issues answer) as Hb.
  destruct (basic_is_valid (_validate_basic_answer answer)) eqn:Ev.
  - rewrite (proj1 Hb eq_refl).
    destruct (bool_decide _), (is_consistent _); reflexivity.
  - destruct (bool_decide _), (is_consistent _); cbn [app];
      rewrite ?app_nil_r, <- ?app_assoc; reflexivity.
Qed.

End Validation.


Section Keywords.
Context {U : Unicode}.

Lemma found_in_nil_iff answer kws :
  found_in answer kws = [] <->
  forall keyword, keyword ∈ kws -> contains keyword answer = false.
Proof.
  unfold found_in. induction kws as [|k kws IH].
  - split; [intros _ ? []%elem_of_nil|done].
  - destruct (contains k answer) eqn:E.
    + rewrite filter_cons_True by done. split; [done|].
      intros H. rewrite (H k) in E; [done|left].
    + rewrite filter_cons_False by (rewrite E; done). rewrite IH. split.
      * intros H keyword [->|?]%elem_of_cons; [done|by apply H].
      * intros H keyword ?. apply H. by right.
Qed.

(** X7: The confidence level is "high" as soon as one keyword of the high
    list occurs in the answer, whatever else occurs; "low" when none of
    the high list but one of the low list occurs; and "medium" otherwise:
    the keywords of the medium list never change the level. *)
Theorem confidence_level_precedence (answer : pystr) :
  let level := confidence_level (_analyze_confidence_keywords answer) in
  let occurs kws := exists keyword, keyword ∈ kws /\ contains keyword answer = true in
  (level = high <-> occurs confidence_keywords_high) /\
  (level = low <->
     ¬ occurs confidence_keywords_high /\ occurs confidence_keywords_low) /\
  (level = medium <->
     ¬ occurs confidence_keywords_high /\ ¬ occurs confidence_keywords_low).
Proof.
  cbn zeta. unfold _analyze_confidence_keywords. cbn [confidence_level].
  assert (Hoccurs : forall kws,
    (exists keyword, keyword ∈ kws /\ contains keyword answer = true)
    <-> found_in answer kws ≠ []).
  { intros kws. rewrite found_in_nil_iff. split.
    - intros (k & Hk & Hc) H. rewrite (H k Hk) in Hc. done.
    - intros H. unfold found_in in *.
      destruct (decide (Exists (fun k => contains k answer = true) kws))
        as [(k & Hk & Hc)%Exists_exists|Hn]; [eauto|].
      destruct H. intros k Hk. apply not_true_is_false. intros Hc.
      apply Hn, Exists_exists. eauto. }
  rewrite !Hoccurs.
  destruct (found_in answer confidence_keywords_high),
    (found_in answer confidence_keywords_low);
    repeat split; try done;
    try (intros [H1 H2]; first [by destruct H1 | by destruct H2]);
    try (intros Hn; by apply Hn).
Qed.

End Keywords.

Section Scores.
Context {U : Unicode}.

(** X8: A basic-valid answer that is consistent with its sources scores at
    least 0.6, whatever its hallucination risk and its keywords, and so
    passes a self-test case that expects a valid answer. *)
Theorem valid_consistent_answer_passes (test_case : TestCase) :
  let v := case_validation test_case in
  default true (tc_expected_validation test_case) = true ->
  is_valid v = true ->
  is_consistent (source_consistency (validation_details v)) = true ->
  (0.6 <=? quality_score v)%float = true /\
  case_passed test_case v = true.
Proof.
  cbn zeta. unfold case_passed, case_validation.
  set (answer := default [] (tc_actual_answer test_case)).
  set (sources := default [] (tc_sources test_case)).
  intros -> Hvalid Hcons. rewrite Hvalid.
  revert Hvalid Hcons. unfold validate_answer.
  cbn [is_valid quality_score validation_details source_consistency].
  rewrite calculate_quality_score_sum. cbn zeta.
  rewrite validate_source_consistency_cases.
  intros -> Hcons.
  assert (Hone : consistency_score (consistency_of answer sources) = 1.0%float).
  { revert Hcons. unfold consistency_of. destruct sources; [discriminate|].
    destruct (bool_decide _ && bool_decide _); [|reflexivity].
    destruct (_ <? _)%float; [discriminate|reflexivity]. }
  rewrite Hone. unfold weighted_sum.
  destruct (risk_level _), (confidence_level _); vm_compute; split; reflexivity.
Qed.

(** X9: Without sources the answer is inconsistent, its confidence is
    multiplied by 0.7, and its quality score is at most 0.8, below 0.5 if
    it is not basic-valid. *)
Theorem unsourced_answer_scores (question answer : pystr)
    (confidence : float) :
  let r := validate_answer question answer [] confidence in
  let d := validation_details r in
  is_consistent (source_consistency d) = false /\
  confidence_adjusted r =
    ((if bool_decide (risk_level (hallucination d) = high)
      then confidence * 0.5 else confidence) * 0.7)%float /\
  (quality_score r <=? 0.8)%float = true /\
  (is_valid r = false -> (quality_score r <? 0.5)%float = true) /\
  In (py "소스와의 일치성 부족") (issues r).
Proof.
  cbn zeta. unfold validate_answer.
  cbn [is_valid quality_score validation_details source_consistency
       hallucination confidence_adjusted issues].
  rewrite calculate_quality_score_sum. cbn zeta.
  cbn [_validate_source_consistency is_consistent consistency_score].
  unfold weighted_sum.
  split; [reflexivity|]. split; [reflexivity|].
  repeat split.
  - destruct (basic_is_valid _), (risk_level _), (confidence_level _);
      vm_compute; reflexivity.
  - intros ->.
    destruct (risk_level _), (confidence_level _); vm_compute; reflexivity.
  - apply in_or_app. right. left. reflexivity.
Qed.


End Scores.

Lemma valid_consistent_answer_passes_witness :
  let test_case :=
    {| tc_question := Some (py "전압은?");
       tc_expected_answer := None;
       tc_actual_answer := Some hedged_answer;
       tc_expected_validation := None;
       tc_sources := Some [Some hedged_answer];
       tc_confidence := None |} in
  let v := case_validation (U := ascii_hangul) test_case in
  default true (tc_expected_validation test_case) = true /\
  is_valid v = true /\
  is_consistent (source_consistency (validation_details v)) = true /\
  (0.6 <=? quality_score v)%float = true /\
  case_passed test_case v = true.
Proof.
  cbn zeta.
  split; [reflexivity|]. split; [vm_compute; reflexivity|].
  split; [vm_compute; reflexivity|].
  apply (valid_consistent_answer_passes (U := ascii_hangul));
    vm_compute; reflexivity.
Defined.

Section Runner.
Context {U : Unicode}.

(** X11: The self-test reports one result per case, in the order of the cases:
    the i-th result (from 0) has [test_id] i + 1, echoes the question, the
    answers and the expectation of its case with their defaults, and the
    summary carries the time stamp it was given. *)
Theorem selftest_results_in_order (now : pystr) (test_cases : list TestCase) :
  let r := run_selftest now test_cases in
  timestamp r = now /\
  length (test_results r) = length test_cases /\
  forall i test_case,
    test_cases !! i = Some test_case ->
    exists t,
      test_results r !! i = Some t /\
      test_id t = i + 1 /\
      tr_question t = default [] (tc_question test_case) /\
      tr_expected_answer t = default [] (tc_expected_answer test_case) /\
      tr_actual_answer t = default [] (tc_actual_answer test_case) /\
      tr_expected_validation t
        = default true (tc_expected_validation test_case).
Proof.
  cbn zeta. unfold run_selftest. cbn [timestamp test_results].
  rewrite (fold_selftest_step (fun i => i)). cbn [fst snd app].
  split; [reflexivity|]. split; [apply length_imap|].
  intros i test_case Hi. exists (run_case i test_case).
  rewrite list_lookup_imap, Hi. repeat split.
Qed.

End Runner.

End ValidationProps.

(* --------------------------------------------------------------------- *)
(** ** More on the orchestration and the endpoint                         *)
(* --------------------------------------------------------------------- *)

Module OrchestrationProps.
Import Quality MultiSource FloatFacts QualityProps MultiSourceProps.
Local Open Scope string_scope.
Local Open Scope list_scope.

(** *** The search phase *)

(** X12: The search phase itself never raises: it returns one element per
    requested source, in request order.  An [Exception] that a task hands
    over becomes a failed result of that source with search time 0, no
    evidence and str(exception) as message; a result is kept as it is; a
    cancellation is kept as the exception object. *)
Theorem search_phase_elements (w : World) (request : MultiSourceQueryRequest) :
  exists gathered,
    _execute_multi_source_search w request = inr gathered /\
    length gathered = length (data_sources request) /\
    forall i ty, data_sources request !! i = Some ty ->
      gathered !! i =
        Some match run_task w i ty with
             | Raised e =>
               Entry {| result_source_type := ty; results := [];
                        search_time_ms := 0; total_found := 0;
                        status := "failed";
                        error_message := Some (exc_str e) |}
             | Returned r => Entry r
             | Cancelled e => Leftover e
             end.
Proof.
  exists (imap (entry_of w) (data_sources request)).
  split; [apply execute_search_entries|]. split; [apply length_imap|].
  intros i ty Hi. rewrite list_lookup_imap, Hi.
  cbn [fmap option_fmap option_map]. unfold entry_of, failed_result.
  by destruct (run_task w i ty).
Qed.

(** *** Cancellation *)

Lemma read_all_leftover l e : Leftover e ∈ l -> read_all l = inl no_status.
Proof.
  induction l as [|[r|e'] l IH]; [by intros ?%elem_of_nil| |reflexivity].
  intros [[=]|H]%elem_of_cons. cbn [read_all]. by rewrite IH.
Qed.

(** X13: A cancelled search task is not an [Exception]: the search phase hands
    its [CancelledError] on in place of a result, and the query raises an
    [AttributeError] when it reads the status, with or without
    combination. *)
Theorem cancelled_task_makes_query_raise {U : Unicode}
    (w : World) (request : MultiSourceQueryRequest)
    (i : nat) (ty : DataSource) (e : PyException) :
  data_sources request !! i = Some ty ->
  run_task w i ty = Cancelled e ->
  (exists gathered,
     _execute_multi_source_search w request = inr gathered /\
     gathered !! i = Some (Leftover e)) /\
  query w request = inl no_status.
Proof.
  intros Hi Hc.
  assert (Hl : imap (entry_of w) (data_sources request) !! i
               = Some (Leftover e)).
  { rewrite list_lookup_imap, Hi. cbn [fmap option_fmap option_map].
    unfold entry_of. by rewrite Hc. }
  split.
  - eexists. split; [apply execute_search_entries|exact Hl].
  - rewrite query_cases.
    by rewrite (read_all_leftover _ e) by by eapply list_elem_of_lookup_2.
Qed.

Definition cancelled_world : World :=
  sample_world
    (fun ty =>
       match ty with
       | DATABASE => Cancelled {| exc_str := [] |}
       | _ => all_succeed ty
       end) grounded_text.

Lemma cancelled_task_makes_query_raise_witness :
  let request := sample_request [DOCUMENTS; DATABASE] false true in
  data_sources request !! 1 = Some DATABASE /\
  run_task cancelled_world 1 DATABASE = Cancelled {| exc_str := [] |} /\
  (exists gathered,
     _execute_multi_source_search cancelled_world request = inr gathered /\
     gathered !! 1 = Some (Leftover {| exc_str := [] |})) /\
  query cancelled_world request = inl no_status.
Proof.
  cbn zeta. split; [reflexivity|]. split; [reflexivity|].
  apply (cancelled_task_makes_query_raise cancelled_world
           (sample_request [DOCUMENTS; DATABASE] false true) 1 DATABASE);
    reflexivity.
Defined.

(** *** The service as wired *)

Lemma search_task_not_raised request b i ty e :
  search_task request b i ty ≠ Raised e.
Proof.
  unfold search_task, awaited.
  destruct ty, (search_block b i _); try destruct (enable_web_search request);
    discriminate.
Qed.

Lemma task_result_shape ty body t :
  let r := task_result ty body t in
  result_source_type r = ty /\ search_time_ms r = t /\
  (status r ≠ "success" -> results r = []).
Proof. destruct body; cbn; repeat split; done. Qed.

(** X14: A search task of the service never hands an [Exception] to
    [asyncio.gather]: it returns a result unless it is cancelled, so the
    conversion of [_execute_multi_source_search] with search time 0 is not
    reached, and a failed result of a task carries the time it measured. *)
Theorem search_task_never_raises (request : MultiSourceQueryRequest)
    (b : Backends) (i : nat) (ty : DataSource) :
  (forall e, search_task request b i ty ≠ Raised e) /\
  (forall r, search_task request b i ty = Returned r ->
     result_source_type r = ty /\
     (status r = "failed" -> search_time_ms r = measured_ms b i ty) /\
     (status r ≠ "success" -> results r = [])) /\
  (forall e, search_task request b i ty = Cancelled e <->
     search_block b i ty = Interrupted e /\
     (ty = WEB_SEARCH -> enable_web_search request = true)).
Proof.
  split; [intros e; apply search_task_not_raised|]. split.
  - intros r. unfold search_task, awaited, _search_documents,
      _search_database, _search_web.
    destruct ty.
    + destruct (search_block b i DOCUMENTS) as [body|e]; [|discriminate].
      intros [= <-].
      destruct (task_result_shape DOCUMENTS body (measured_ms b i DOCUMENTS))
        as (? & ? & ?). auto.
    + destruct (search_block b i DATABASE) as [body|e]; [|discriminate].
      intros [= <-].
      destruct (task_result_shape DATABASE body (measured_ms b i DATABASE))
        as (? & ? & ?). auto.
    + destruct (enable_web_search request); cbn [negb].
      * destruct (search_block b i WEB_SEARCH) as [body|e]; [|discriminate].
        intros [= <-].
        destruct (task_result_shape WEB_SEARCH body
                    (measured_ms b i WEB_SEARCH)) as (? & ? & ?). auto.
      * intros [= <-]. cbn. repeat split. discriminate.
  - intros e. unfold search_task, awaited.
    assert (Hblock : forall ty' (task : _ -> _ -> SourceSearchResult),
      (ty' = WEB_SEARCH -> enable_web_search request = true) ->
      match search_block b i ty' with
      | Ends body => Returned (task body (measured_ms b i ty'))
      | Interrupted e0 => Cancelled e0
      end = Cancelled e
      <-> search_block b i ty' = Interrupted e /\
          (ty' = WEB_SEARCH -> enable_web_search request = true)).
    { intros ty' task Hweb.
      destruct (search_block b i ty') as [body|e']; split.
      - discriminate.
      - intros [[=] _].
      - intros [= ->]. by split.
      - intros [[= ->] _]. reflexivity. }
    destruct ty.
    + by apply Hblock.
    + by apply Hblock.
    + destruct (enable_web_search request) eqn:Ew.
      * by apply Hblock.
      * split; [discriminate|]. intros [_ H]. by specialize (H eq_refl).
Qed.

(** X15: Whatever the searches do short of being cancelled, the query of the
    service returns: failures degrade the response, they do not abort
    it. *)
Theorem service_never_raises {U : Unicode}
    (request : MultiSourceQueryRequest) (b : Backends) :
  (forall i ty e, data_sources request !! i = Some ty ->
     search_task request b i ty ≠ Cancelled e) ->
  exists found outcome,
    _execute_multi_source_search (service_world request b) request
      = inr (Entry <$> found) /\
    length found = length (data_sources request) /\
    query (service_world request b) request = inr outcome /\
    match outcome with
    | Combined response => combine_results request = true
    | Individual response =>
      combine_results request = false /\ source_results response = found
    end.
Proof.
  intros Hnc.
  assert (Hall : forall i ty, data_sources request !! i = Some ty ->
            exists r, entry_of (service_world request b) i ty = Entry r).
  { intros i ty Hi. unfold entry_of. cbn [run_task service_world].
    destruct (search_task request b i ty) as [e|r|e] eqn:E; [| |].
    - by destruct (search_task_not_raised request b i ty e).
    - eauto.
    - by destruct (Hnc i ty e Hi). }
  assert (Hfound : exists found,
            imap (entry_of (service_world request b)) (data_sources request)
            = Entry <$> found).
  { clear Hnc. revert Hall.
    generalize (entry_of (service_world request b)) as f.
    induction (data_sources request) as [|d ds IH]; intros f Hall.
    - by exists [].
    - destruct (Hall 0 d eq_refl) as [r Hr].
      destruct (IH (fun j => f (S j))) as [found Hf].
      { intros j ty Hj. apply (Hall (S j) ty Hj). }
      exists (r :: found). cbn [imap fmap list_fmap]. rewrite Hr.
      f_equal. exact Hf. }
  destruct Hfound as [found Hfound].
  destruct (service_query_returns request b found Hfound)
    as (outcome & Hq & Ho).
  exists found, outcome.
  split; [by rewrite execute_search_entries, Hfound|].
  split; [|done].
  apply (f_equal length) in Hfound.
  by rewrite length_imap, length_fmap in Hfound.
Qed.


Lemma service_never_raises_witness :
  let request := sample_request [DOCUMENTS; DATABASE; WEB_SEARCH] false true in
  let b := sample_backends
             (database_fails {| exc_str := py "database is locked" |})
             grounded_text in
  (forall i ty e, data_sources request !! i = Some ty ->
     search_task request b i ty ≠ Cancelled e) /\
  exists found outcome,
    _execute_multi_source_search
      (service_world (U := ascii_hangul) request b) request
      = inr (Entry <$> found) /\
    length found = length (data_sources request) /\
    query (service_world (U := ascii_hangul) request b) request
      = inr outcome /\
    match outcome with
    | Combined response => combine_results request = true
    | Individual response =>
      combine_results request = false /\ source_results response = found
    end.
Proof.
  cbn zeta.
  assert (H : forall i ty e,
    data_sources (sample_request [DOCUMENTS; DATABASE; WEB_SEARCH] false true)
      !! i = Some ty ->
    search_task (sample_request [DOCUMENTS; DATABASE; WEB_SEARCH] false true)
      (sample_backends
         (database_fails {| exc_str := py "database is locked" |})
         grounded_text) i ty ≠ Cancelled e).
  { intros i [] e _; discriminate. }
  split; [exact H|].
  apply (service_never_raises (U := ascii_hangul) _ _ H).
Defined.

(** All three searches find their item. *)
Definition all_found (ty : DataSource) : try_outcome :=
  match ty with
  | DOCUMENTS => Ends (inr [doc_item])
  | DATABASE => Ends (inr [db_item])
  | WEB_SEARCH => Ends (inr [web_item])
  end.

(** *** Responses *)

Section Responses.
Context {U : Unicode}.

(** X16: A web search that is requested but not enabled is reported as
    "disabled", with search time 0 and a fixed message, whatever its
    backend would do; it is no failure and brings no evidence. *)
Theorem disabled_web_search_is_skipped
    (request : MultiSourceQueryRequest) (b : Backends) (i : nat) :
  enable_web_search request = false ->
  search_task request b i WEB_SEARCH =
    Returned {| result_source_type := WEB_SEARCH; results := [];
                search_time_ms := 0; total_found := 0;
                status := "disabled";
                error_message :=
                  Some (py "웹 검색이 비활성화되어 있습니다.") |}.
Proof.
  intros Hd. unfold search_task, _search_web. rewrite Hd. reflexivity.
Qed.

(** X17: Without combination the response holds the results as they were found,
    and counts those with status "success" and those with status "failed";
    a disabled web search is in neither count, so the two counts add up to
    at most the number of results. *)
Theorem individual_response_counts
    (w : World) (request : MultiSourceQueryRequest)
    (response : MultiSourceSearchResponse) :
  query w request = inr (Individual response) ->
  combine_results request = false /\
  _execute_multi_source_search w request
    = inr (Entry <$> source_results response) /\
  length (source_results response) = length (data_sources request) /\
  search_question response = question request /\
  total_search_time_ms response = query_elapsed_ms w /\
  successful_sources response
    = length (filter (fun r => status r = "success") (source_results response)) /\
  failed_sources response
    = length (filter (fun r => status r = "failed") (source_results response)) /\
  successful_sources response + failed_sources response
    <= length (source_results response).
Proof.
  rewrite query_cases.
  destruct (read_all _) as [e|found] eqn:E; [discriminate|].
  apply read_all_inv in E.
  destruct (combine_results request);
    [destruct (generate_response _ _ _ _); discriminate|].
  intros [= <-]. cbn [source_results search_question total_search_time_ms
                      successful_sources failed_sources].
  split; [reflexivity|].
  split; [by rewrite execute_search_entries, E|].
  split.
  { apply (f_equal length) in E. by rewrite length_imap, length_fmap in E. }
  split; [reflexivity|]. split; [reflexivity|].
  assert (Hcount : forall s,
    count_status s found = length (filter (fun r => status r = s) found)).
  { intros s. unfold count_status, is_status. f_equal.
    apply list_filter_iff. intros r. apply String.eqb_eq. }
  rewrite !Hcount. split; [reflexivity|]. split; [reflexivity|].
  clear. induction found as [|r found IH]; [reflexivity|].
  destruct (decide (status r = "success")) as [Hs|Hs].
  - rewrite filter_cons_True by done.
    rewrite filter_cons_False by (rewrite Hs; discriminate).
    cbn [length]. lia.
  - rewrite filter_cons_False by done.
    destruct (decide (status r = "failed")).
    + rewrite filter_cons_True by done. cbn [length]. lia.
    + rewrite filter_cons_False by done. cbn [length]. lia.
Qed.

Lemma no_success_no_evidence found :
  (forall sr, sr ∈ found -> status sr ≠ "success") ->
  evidence found = [] /\ fold_left combine_step found ([], ∅) = ([], ∅).
Proof.
  intros Hnone.
  assert (Hfold : forall acc, fold_left combine_step found acc = acc).
  { induction found as [|r found IH]; intros acc; [reflexivity|].
    cbn [fold_left]. unfold combine_step at 2, is_status.
    destruct (String.eqb (status r) "success") eqn:E.
    - apply String.eqb_eq in E. destruct (Hnone r); [left|done].
    - apply IH. intros sr Hsr. apply Hnone. by right. }
  split; [|apply Hfold].
  pose proof (fold_combine_step_evidence found [] ∅) as E.
  rewrite Hfold in E. cbn in E. done.
Qed.

(** X18: When no source succeeds the combined response has no sources and no
    counts, and its answer, generated without evidence, is always penalised
    as inconsistent: the confidence is 0.8 * 0.7, or 0.8 * 0.5 * 0.7 at a
    high hallucination risk. *)
Theorem no_successful_source_response
    (w : World) (request : MultiSourceQueryRequest)
    (found : list SourceSearchResult) (response : MultiSourceQueryResponse) :
  _execute_multi_source_search w request = inr (Entry <$> found) ->
  (forall sr, sr ∈ found -> status sr ≠ "success") ->
  query w request = inr (Combined response) ->
  sources response = [] /\
  sources_by_type response = ∅ /\
  total_sources_searched response = 0 /\
  (confidence response = 0.5599999999999999%float \/
   confidence response = 0.27999999999999997%float).
Proof.
  rewrite execute_search_entries. intros [= Hsearch] Hnone.
  intros (found' & text & Hfound & _ & ->)%query_combined_inv.
  rewrite Hsearch in Hfound. apply entries_inj in Hfound as <-.
  destruct (no_success_no_evidence found Hnone) as [He Hf].
  cbn [with_query_time combined_response sources sources_by_type
       total_sources_searched confidence].
  rewrite He, Hf. cbn [sort_desc foldr take map length snd].
  split; [reflexivity|]. split; [reflexivity|]. split; [reflexivity|].
  unfold validate_answer.
  cbn [confidence_adjusted _validate_source_consistency is_consistent].
  destruct (bool_decide _); [right|left]; reflexivity.
Qed.

End Responses.

Lemma disabled_web_search_is_skipped_witness :
  enable_web_search (sample_request [WEB_SEARCH] false true) = false /\
  search_task (sample_request [WEB_SEARCH] false true)
    (sample_backends all_found grounded_text) 0 WEB_SEARCH =
    Returned {| result_source_type := WEB_SEARCH; results := [];
                search_time_ms := 0; total_found := 0;
                status := "disabled";
                error_message :=
                  Some (py "웹 검색이 비활성화되어 있습니다.") |}.
Proof.
  split; [reflexivity|].
  apply (disabled_web_search_is_skipped
           (sample_request [WEB_SEARCH] false true)
           (sample_backends all_found grounded_text) 0).
  reflexivity.
Defined.

Definition individual_response : MultiSourceSearchResponse :=
  {| search_question := py "DDR5 voltage?";
     source_results := degraded_found;
     total_search_time_ms := 42;
     successful_sources := 1;
     failed_sources := 1 |}.

Lemma individual_response_counts_witness :
  let request := sample_request [DOCUMENTS; DATABASE; WEB_SEARCH] false false in
  query (U := ascii_hangul) degraded_world request
    = inr (Individual individual_response) /\
  map status (source_results individual_response)
    = ["success"; "failed"; "disabled"] /\
  combine_results request = false /\
  _execute_multi_source_search degraded_world request
    = inr (Entry <$> source_results individual_response) /\
  length (source_results individual_response)
    = length (data_sources request) /\
  search_question individual_response = question request /\
  total_search_time_ms individual_response = query_elapsed_ms degraded_world /\
  successful_sources individual_response
    = length (filter (fun r => status r = "success")
                (source_results individual_response)) /\
  failed_sources individual_response
    = length (filter (fun r => status r = "failed")
                (source_results individual_response)) /\
  successful_sources individual_response + failed_sources individual_response
    <= length (source_results individual_response).
Proof.
  cbn zeta. split; [vm_compute; reflexivity|].
  split; [vm_compute; reflexivity|].
  apply (individual_response_counts (U := ascii_hangul) degraded_world
           (sample_request [DOCUMENTS; DATABASE; WEB_SEARCH] false false)
           individual_response).
  vm_compute; reflexivity.
Defined.

(** Every search fails or is switched off. *)
Definition nothing_found : list SourceSearchResult :=
  [_search_database (inl {| exc_str := py "database is locked" |}) 7;
   _search_web (sample_request [] false true) (inr []) 30].

Definition blind_response : MultiSourceQueryResponse :=
  with_query_time 42
    (combined_response (U := ascii_hangul) degraded_world
       (sample_request [DATABASE; WEB_SEARCH] false true) nothing_found
       grounded_text).

Lemma no_successful_source_response_witness :
  let request := sample_request [DATABASE; WEB_SEARCH] false true in
  _execute_multi_source_search degraded_world request
    = inr (Entry <$> nothing_found) /\
  (forall sr, sr ∈ nothing_found -> status sr ≠ "success") /\
  query (U := ascii_hangul) degraded_world request
    = inr (Combined blind_response) /\
  sources blind_response = [] /\
  sources_by_type blind_response = ∅ /\
  total_sources_searched blind_response = 0 /\
  (confidence blind_response = 0.5599999999999999%float \/
   confidence blind_response = 0.27999999999999997%float).
Proof.
  cbn zeta.
  assert (H : forall sr, sr ∈ nothing_found -> status sr ≠ "success").
  { intros sr Hsr. repeat (apply elem_of_cons in Hsr as [->|Hsr]);
      [discriminate|discriminate|by apply elem_of_nil in Hsr]. }
  split; [vm_compute; reflexivity|]. split; [exact H|].
  split; [vm_compute; reflexivity|].
  apply (no_successful_source_response (U := ascii_hangul) degraded_world
           (sample_request [DATABASE; WEB_SEARCH] false true)
           nothing_found blind_response);
    [vm_compute; reflexivity|exact H|vm_compute; reflexivity].
Defined.



(** *** Ordering *)

Section Ordering.
Context {A : Type} (key : A -> float).



End Ordering.


(** *** The advanced endpoint *)

Section Endpoint.
Context {U : Unicode}.

(** X20: The endpoint answers a blank question with status 400 without querying,
    turns an exception of the query into status 500 with its description,
    and otherwise returns the response of a combined query, which it always
    asks for, without a web search query of its own. *)
Theorem advanced_query_outcomes (w : World)
    (request : AdvancedMultiSourceRequest) :
  combine_results (basic_request_of request) = true /\
  web_search_query (basic_request_of request) = None /\
  (strip (adv_question request) = [] ->
     advanced_multi_source_query w request
     = inl {| status_code := 400; detail := py "질문을 입력해주세요." |}) /\
  (strip (adv_question request) ≠ [] ->
     forall e, query w (basic_request_of request) = inl e ->
       advanced_multi_source_query w request
       = inl {| status_code := 500;
                detail :=
                  py "고급 다중 소스 질의응답 처리 중 오류가 발생했습니다: "
                  ++ exc_str e |}) /\
  (forall response,
     advanced_multi_source_query w request = inr response ->
     strip (adv_question request) ≠ [] /\
     exists base,
       query w (basic_request_of request) = inr (Combined base) /\
       response = adjust_response request base).
Proof.
  split; [reflexivity|]. split; [reflexivity|].
  unfold advanced_multi_source_query. repeat split.
  - intros E. by rewrite bool_decide_eq_true_2.
  - intros E e He. rewrite bool_decide_eq_false_2 by done. by rewrite He.
  - revert H. destruct (bool_decide _) eqn:E; [discriminate|].
    intros _. by apply bool_decide_eq_false in E.
  - revert H. destruct (bool_decide _); [discriminate|].
    destruct (query w (basic_request_of request)) as [e|[base|other]];
      [discriminate| |discriminate].
    intros [= <-]. eauto.
Qed.

(** X21: The adjustment of the endpoint changes the list of sources only: the
    answer, the confidence and the counts of the combined response stay as
    they were, also when the threshold drops sources; and the weights alone
    drop none. *)
Theorem adjustment_changes_sources_only
    (request : AdvancedMultiSourceRequest)
    (base : MultiSourceQueryResponse) :
  let response := adjust_response request base in
  answer response = answer base /\
  confidence response = confidence base /\
  query_time_ms response = query_time_ms base /\
  model_used response = model_used base /\
  sources_by_type response = sources_by_type base /\
  search_strategy response = search_strategy base /\
  total_sources_searched response = total_sources_searched base /\
  length (sources response) <= length (sources base) /\
  (forall weights,
     length (sources (_apply_source_weights base weights))
     = length (sources base)) /\
  (source_weights request = None ->
   (0.0 <? min_relevance_threshold request)%float = false ->
   response = base).
Proof.
  cbn zeta. unfold adjust_response, _apply_source_weights, with_sources.
  assert (Hlen : forall weights,
    length (sort_desc relevance_score (map (reweigh weights) (sources base)))
    = length (sources base)).
  { intros weights.
    by rewrite (Permutation_length (sort_desc_perm relevance_score _)),
         length_map. }
  destruct (source_weights request) as [weights|],
    (0.0 <? min_relevance_threshold request)%float;
    cbn [answer confidence query_time_ms model_used sources_by_type
         search_strategy total_sources_searched sources];
    repeat split; try done; try (intros; apply Hlen).
  - etrans; [apply length_filter|]. by rewrite Hlen.
  - by rewrite Hlen.
  - apply length_filter.
Qed.

End Endpoint.

(** *** The strategy heuristic *)

(** X22: The heuristic answers "fast" for a single source, "comprehensive" when
    web search is among several, and otherwise "fast" or "balanced" by the
    number of results asked per source; it never answers
    "documents_first". *)
Theorem search_strategy_labels (request : MultiSourceQueryRequest) :
  let strategy := _determine_search_strategy request in
  (strategy = "fast" \/ strategy = "comprehensive" \/ strategy = "balanced") /\
  strategy ≠ "documents_first" /\
  (strategy = "comprehensive" <->
     length (data_sources request) ≠ 1 /\ WEB_SEARCH ∈ data_sources request) /\
  (strategy = "balanced" <->
     length (data_sources request) ≠ 1 /\
     (WEB_SEARCH ∉ data_sources request) /\
     (3 < top_k_per_source request)%Z).
Proof.
  cbn zeta. rewrite determine_search_strategy_heuristic.
  destruct (decide (length _ = 1)) as [E1|E1];
    [|destruct (decide (WEB_SEARCH ∈ _)) as [E2|E2];
      [|destruct (decide (_ <= 3)%Z) as [E3|E3]]];
    (split; [auto|]); (split; [discriminate|]);
    split; split; try discriminate; try tauto; try (intros (? & ? & ?); lia).
  intros _. repeat split; [done|done|lia].
Qed.

(** *** The answer of the service *)

(** X23: The answer of a combined response of the service is the text of
    the model server for the question, the role and the sources of the
    response, stripped, when the server answers with status 200 (the empty
    string when its body has no text); any other status and any exception
    of the request give a fixed apology each.  The answer is returned as it
    is, whatever its validation says, with the model and the elapsed time of
    the request. *)
Theorem service_answer_text {U : Unicode}
    (request : MultiSourceQueryRequest) (b : Backends)
    (response : MultiSourceQueryResponse) :
  query (service_world request b) request = inr (Combined response) ->
  answer response =
    match ollama_post b (question request) (user_role request)
            (sources response) with
    | inr (code, text) =>
      if (code =? 200)%Z then strip (default [] text)
      else py "죄송합니다. 현재 응답을 생성할 수 없습니다."
    | inl _ => py "죄송합니다. 시스템 오류가 발생했습니다."
    end /\
  model_used response = ollama_model b /\
  query_time_ms response = elapsed_ms b.
Proof.
  intros (found & text & _ & Hgen & ->)%query_combined_inv.
  cbn [with_query_time combined_response answer sources model_used
       query_time_ms model query_elapsed_ms service_world].
  cbn [generate_response service_world] in Hgen.
  injection Hgen as <-. unfold ollama_generate_response.
  repeat split.
Qed.

Definition served_response : MultiSourceQueryResponse :=
  with_query_time 42
    (combined_response (U := ascii_hangul)
       (service_world (sample_request [DOCUMENTS] false true)
          (sample_backends all_found (py "  DDR5 operating voltage is 1.1V ")))
       (sample_request [DOCUMENTS] false true)
       [_search_documents (inr [doc_item]) 12]
       grounded_text).

Lemma service_answer_text_witness :
  let request := sample_request [DOCUMENTS] false true in
  let b := sample_backends all_found (py "  DDR5 operating voltage is 1.1V ") in
  query (U := ascii_hangul) (service_world request b) request
    = inr (Combined served_response) /\
  answer served_response = py "DDR5 operating voltage is 1.1V" /\
  answer served_response =
    match ollama_post b (question request) (user_role request)
            (sources served_response) with
    | inr (code, text) =>
      if (code =? 200)%Z
      then strip (U := ascii_hangul) (default [] text)
      else py "죄송합니다. 현재 응답을 생성할 수 없습니다."
    | inl _ => py "죄송합니다. 시스템 오류가 발생했습니다."
    end /\
  model_used served_response = ollama_model b /\
  query_time_ms served_response = elapsed_ms b.
Proof.
  cbn zeta. split; [vm_compute; reflexivity|].
  split; [vm_compute; reflexivity|].
  apply (service_answer_text (U := ascii_hangul)
           (sample_request [DOCUMENTS] false true)
           (sample_backends all_found (py "  DDR5 operating voltage is 1.1V "))
           served_response).
  vm_compute; reflexivity.
Defined.
End OrchestrationProps.
